(** * MLflow Pipelines: the orchestration core, embedded and verified

    A shallow embedding of [mlflow/pipelines/pipeline.py] (step lookup,
    subgraph resolution, the [run] / [inspect] / [clean] entry points, the
    [Pipeline] factory) and of [mlflow/pipelines/steps/split.py] (the train /
    validation / test split, the hash buckets, and the helpers around them),
    together with models of the execution utilities that the pipeline calls.

    Part I holds the definitions, Part II the theorems. *)

From Stdlib Require Import ZArith List String Ascii Bool Lia Permutation.
From Stdlib Require Import Floats.SpecFloat.
From stdpp Require Import base option list strings gmap.

Set Default Proof Using "Type".

(* ===================================================================== *)
(** * Part I: definitions                                                 *)
(* ===================================================================== *)

(** ** Python values the code manipulates *)

Module Py.

(** Error codes imported from [mlflow.protos.databricks_pb2]. *)
Inductive ErrorCode : Set :=
  | INTERNAL_ERROR
  | INVALID_PARAMETER_VALUE
  | BAD_REQUEST.

(** Exceptions. [MlflowException(message, error_code=...)]: the code is
    [None] when the raise site passes none.  [BuiltinError] stands for the
    interpreter's own exceptions ([ValueError], [IndexError],
    [ZeroDivisionError], ...) and for whatever an external collaborator
    raises. *)
Inductive PyException : Set :=
  | MlflowException (message : string) (error_code : option ErrorCode)
  | BuiltinError (type_name : string) (message : string).

(** A call either returns or raises. *)
Inductive result (A : Type) : Type :=
  | Return (a : A)
  | Raise (e : PyException).
Arguments Return {A} a.
Arguments Raise {A} e.

Definition bind {A B : Type} (m : result A) (k : A -> result B) : result B :=
  match m with
  | Return a => k a
  | Raise e => Raise e
  end.

(** The text an exception carries. *)
Definition exception_text (e : PyException) : string :=
  match e with
  | MlflowException m _ => m
  | BuiltinError type_name m => type_name +:+ ": " +:+ m
  end.

(** [sub in s] on [str]. *)
Fixpoint py_contains (sub s : string) : bool :=
  String.prefix sub s ||
  match s with
  | EmptyString => false
  | String _ rest => py_contains sub rest
  end.

(** [s] occurs in [t]: what [py_contains] decides. *)
Definition occurs_in (s t : string) : Prop :=
  exists pre post, t = pre +:+ s +:+ post.

(** [x in xs] on a list of [str]. *)
Definition py_in (x : string) (xs : list string) : bool :=
  bool_decide (x ∈ xs).

(** [xs.index(x)]: the first position of [x]; [ValueError] when absent. *)
Fixpoint py_index (x : string) (xs : list string) : result nat :=
  match xs with
  | [] => Raise (BuiltinError "ValueError" (x +:+ " is not in list"))
  | y :: rest =>
      if decide (y = x) then Return 0
      else bind (py_index x rest) (fun i => Return (S i))
  end.

(** [xs[i]] for a non-negative [i]; [IndexError] out of range. *)
Definition py_getitem {A : Type} (xs : list A) (i : nat) : result A :=
  match xs !! i with
  | Some a => Return a
  | None => Raise (BuiltinError "IndexError" "list index out of range")
  end.

Definition quote_char : ascii := "'"%char.
Definition dquote_char : ascii := ascii_of_nat 34.
Definition backslash_char : ascii := ascii_of_nat 92.

Definition hex_digit (n : nat) : ascii :=
  match String.get n "0123456789abcdef" with
  | Some c => c
  | None => "0"%char
  end.

(** One character of [repr(str)], for the quote [q] that [repr] chose:
    backslash and the quote are escaped, tab / newline / carriage return
    get their letter, other control characters are written [\xhh]; bytes
    above 127 (UTF-8 of printable text) are kept. *)
Definition repr_char (q c : ascii) : string :=
  let n := nat_of_ascii c in
  let bs := String backslash_char EmptyString in
  if decide (c = backslash_char) then bs +:+ bs
  else if decide (c = q) then bs +:+ String q EmptyString
  else if decide (n = 9) then bs +:+ "t"
  else if decide (n = 10) then bs +:+ "n"
  else if decide (n = 13) then bs +:+ "r"
  else if decide (n < 32 \/ n = 127) then
    bs +:+ "x" +:+ String (hex_digit (n / 16)) (String (hex_digit (n mod 16)) EmptyString)
  else String c EmptyString.

Fixpoint repr_body (q : ascii) (s : string) : string :=
  match s with
  | EmptyString => EmptyString
  | String c rest => repr_char q c +:+ repr_body q rest
  end.

(** [repr(s)] for a [str]: single quotes, unless the text holds a single
    quote and no double quote. *)
Definition py_repr_str (s : string) : string :=
  let q :=
    if py_contains (String quote_char EmptyString) s
       && negb (py_contains (String dquote_char EmptyString) s)
    then dquote_char else quote_char in
  String q EmptyString +:+ repr_body q s +:+ String q EmptyString.

(** [str(xs)] for a list of [str], as an f-string field renders it. *)
Definition py_str_list (xs : list string) : string :=
  "[" +:+ String.concat ", " (map py_repr_str xs) +:+ "]".

(** An f-string field holding [None] or a [str]. *)
Definition py_format_optional (o : option string) : string :=
  match o with
  | Some s => s
  | None => "None"
  end.

(** Truthiness of an argument declared [step: str = None]. *)
Definition py_truthy (o : option string) : bool :=
  match o with
  | Some s => negb (bool_decide (s = EmptyString))
  | None => false
  end.

End Py.

Export Py.

(** ** [mlflow/pipelines/pipeline.py] *)

Module Pipeline.

(** Modelled from the spec: the enum [StepClass] of [mlflow/pipelines/step.py],
    which tags a step with the DAG it belongs to ("training" path, "scoring"
    path, or "unknown"); [split.py] returns [StepClass.TRAINING]. *)
Inductive StepClass : Set :=
  | UNKNOWN
  | TRAINING
  | PREDICTION.

#[global] Instance StepClass_eq_dec : EqDecision StepClass.
Proof. solve_decision. Defined.

(** Modelled from the spec: the enum [StepStatus] of [mlflow/pipelines/step.py]. *)
Inductive StepStatus : Set :=
  | StatusUNKNOWN
  | SUCCEEDED
  | FAILED.

#[global] Instance StepStatus_eq_dec : EqDecision StepStatus.
Proof. solve_decision. Defined.

(** Modelled from the spec: the persisted execution state record
    ([status], [last_updated_timestamp], [stack_trace]). *)
Record StepExecutionState : Set := {
  status : StepStatus;
  last_updated_timestamp : Z;
  stack_trace : option string;
}.

(** An artifact, as far as [_get_artifact] looks at it: [artifact.name()]. *)
Record Artifact : Set := {
  artifact_name : string;
}.

#[global] Instance Artifact_eq_dec : EqDecision Artifact.
Proof. solve_decision. Defined.

(** A step object, as far as the pipeline looks at it: the [name] property,
    and the methods [step_class()] and [get_artifacts()]. *)
Record BaseStep : Set := {
  name : string;
  step_class : StepClass;
  get_artifacts : list Artifact;
}.

#[global] Instance BaseStep_eq_dec : EqDecision BaseStep.
Proof. solve_decision. Defined.

(** The two kinds of object that line 168 compares: the attribute
    [target_step.step_class] read without a call is a bound method, and
    [StepClass.UNKNOWN] is an enum member. *)
Inductive PyObject : Set :=
  | EnumMember (c : StepClass)
  | BoundMethod (self : BaseStep) (method_name : string).

(** [a == b]: enum members are equal when they are the same member, bound
    methods when they bind the same function to the same object; objects of
    the two kinds are never equal. *)
Definition py_eq (a b : PyObject) : bool :=
  match a, b with
  | EnumMember c, EnumMember d => bool_decide (c = d)
  | BoundMethod s m, BoundMethod s' m' => bool_decide (s = s' /\ m = m')
  | _, _ => false
  end.

(** Lines 151-159, [_BasePipeline._get_step]. *)
Definition _get_step (_steps : list BaseStep) (step_name : string) : result BaseStep :=
  let steps := _steps in
  let step_names := map name steps in
  if negb (py_in step_name step_names) then
    Raise (MlflowException
             ("Step " +:+ step_name +:+ " not found in pipeline. Available steps are "
              +:+ py_str_list step_names) None)
  else bind (py_index step_name step_names) (py_getitem _steps).

(** The loop of lines 170-172, with the list built so far. *)
Fixpoint subgraph_loop (target_step : BaseStep) (steps subgraph : list BaseStep)
  : list BaseStep :=
  match steps with
  | [] => subgraph
  | step :: rest =>
      subgraph_loop target_step rest
        (if py_eq (EnumMember (step_class target_step)) (EnumMember (step_class step))
         then subgraph ++ [step] else subgraph)
  end.

(** Lines 162-173, [_BasePipeline._get_subgraph_for_target_step].  The guard
    of line 168 compares the method itself, not its result. *)
Definition _get_subgraph_for_target_step (_steps : list BaseStep) (target_step : BaseStep)
  : list BaseStep :=
  let subgraph := [] in
  if py_eq (BoundMethod target_step "step_class") (EnumMember UNKNOWN) then subgraph
  else subgraph_loop target_step _steps subgraph.

(** The loops of lines 355-358. *)
Fixpoint find_artifact (artifacts : list Artifact) (artifact_name0 : string)
  : option Artifact :=
  match artifacts with
  | [] => None
  | artifact :: rest =>
      if decide (artifact_name artifact = artifact_name0) then Some artifact
      else find_artifact rest artifact_name0
  end.

Fixpoint find_artifact_in_steps (steps : list BaseStep) (artifact_name0 : string)
  : option Artifact :=
  match steps with
  | [] => None
  | step :: rest =>
      match find_artifact (get_artifacts step) artifact_name0 with
      | Some artifact => Some artifact
      | None => find_artifact_in_steps rest artifact_name0
      end
  end.

(** Lines 346-362, [_BasePipeline._get_artifact]. *)
Definition _get_artifact (_steps : list BaseStep) (artifact_name0 : string)
  : result Artifact :=
  match find_artifact_in_steps _steps artifact_name0 with
  | Some artifact => Return artifact
  | None =>
      Raise (MlflowException
               ("The artifact with name '" +:+ artifact_name0 +:+ "' is not supported.")
               (Some INVALID_PARAMETER_VALUE))
  end.

(** *** The pipeline object and its entry points

    The pipeline object keeps the fields that [__init__] sets.  Everything the
    entry points call outside this file (configuration loading, the step
    classes' constructors, the execution utilities, the display) is a
    collaborator: a function of the world (the files of the pipeline root and
    of the execution directory) that returns or raises and may change the
    world. *)

Section Orchestration.

Context {World Opaque : Type}.

(** A value of the configuration mapping: a string (such as the profile
    name) or anything else the YAML files hold. *)
Inductive ConfigValue : Type :=
  | StrValue (s : string)
  | OtherValue (o : Opaque).

Abbreviation Config := (gmap string ConfigValue).

Record PipelineObj : Type := {
  _pipeline_root_path : string;
  _profile : string;
  _name : string;
  _steps : list BaseStep;
  _template : option ConfigValue;
}.

Definition set_steps (steps : list BaseStep) (self : PipelineObj) : PipelineObj :=
  {| _pipeline_root_path := _pipeline_root_path self;
     _profile := _profile self;
     _name := _name self;
     _steps := steps;
     _template := _template self |}.

Record Collaborators : Type := {
  (** [get_pipeline_name(pipeline_root_path)] *)
  get_pipeline_name : string -> World -> result string;
  (** [get_pipeline_config(pipeline_root_path, profile)] *)
  get_pipeline_config : string -> string -> World -> result Config;
  (** [self._get_step_classes()], each class with its
      [from_pipeline_config(pipeline_config, pipeline_root)] *)
  _get_step_classes : list (Config -> string -> result BaseStep);
  (** [self._get_default_step()] (abstract method) *)
  _get_default_step : PipelineObj -> result BaseStep;
  (** [run_pipeline_step(pipeline_root_path, pipeline_steps, target_step, template)] *)
  run_pipeline_step :
    string -> list BaseStep -> BaseStep -> option ConfigValue -> World -> result BaseStep * World;
  (** [get_step_output_path(pipeline_root_path, step_name, relative_path)] *)
  get_step_output_path : string -> string -> string -> World -> result string * World;
  (** [step.get_execution_state(output_directory)] *)
  get_execution_state : BaseStep -> string -> World -> result StepExecutionState;
  (** [step.inspect(output_directory)] *)
  step_inspect : BaseStep -> string -> World -> result unit * World;
  (** [display_html(html_file_path=self._get_pipeline_dag_file())] *)
  display_pipeline_dag : PipelineObj -> World -> result unit * World;
  (** [clean_execution_state(pipeline_root_path, pipeline_steps)] *)
  clean_execution_state : string -> list BaseStep -> World -> result unit * World;
}.

Variable c : Collaborators.

(** A method body: it reads and assigns fields of [self], calls
    collaborators, and returns or raises; what it assigned before raising
    stays assigned. *)
Definition M (A : Type) : Type := PipelineObj * World -> result A * (PipelineObj * World).

Definition ret {A : Type} (a : A) : M A := fun st => (Return a, st).

Definition raise {A : Type} (e : PyException) : M A := fun st => (Raise e, st).

Definition bindM {A B : Type} (m : M A) (k : A -> M B) : M B :=
  fun st =>
    match m st with
    | (Return a, st') => k a st'
    | (Raise e, st') => (Raise e, st')
    end.

Notation "x <- m ;; k" := (bindM m (fun x => k))
  (at level 100, m at next level, right associativity, only parsing).
Notation "m ;;; k" := (bindM m (fun _ => k))
  (at level 100, right associativity, only parsing).

(** Read [self]. *)
Definition self_ : M PipelineObj := fun st => (Return (fst st), st).

(** [self._steps = steps] *)
Definition assign_steps (steps : list BaseStep) : M unit :=
  fun st => (Return tt, (set_steps steps (fst st), snd st)).

(** A pure call that may raise. *)
Definition lift {A : Type} (r : result A) : M A := fun st => (r, st).

(** A collaborator that reads the world. *)
Definition reads {A : Type} (f : World -> result A) : M A :=
  fun st => (f (snd st), st).

(** A collaborator that may change the world. *)
Definition calls {A : Type} (f : World -> result A * World) : M A :=
  fun st => let '(r, w) := f (snd st) in (r, (fst st, w)).

(** The list comprehension of lines 330-333. *)
Fixpoint construct_steps
  (classes : list (Config -> string -> result BaseStep))
  (pipeline_config : Config) (pipeline_root : string) : result (list BaseStep) :=
  match classes with
  | [] => Return []
  | s :: rest =>
      bind (s pipeline_config pipeline_root) (fun step =>
      bind (construct_steps rest pipeline_config pipeline_root) (fun steps =>
      Return (step :: steps)))
  end.

(** Lines 324-333, [_BasePipeline._resolve_pipeline_steps]. *)
Definition _resolve_pipeline_steps : M (list BaseStep) :=
  self <- self_ ;;
  pipeline_config <- reads (get_pipeline_config c (_pipeline_root_path self) (_profile self)) ;;
  let pipeline_config := <["profile" := StrValue (_profile self)]> pipeline_config in
  lift (construct_steps (_get_step_classes c) pipeline_config (_pipeline_root_path self)).

(** Lines 36-59, [_BasePipeline.__init__]. *)
Definition __init__ (pipeline_root_path profile : string) (w : World)
  : result PipelineObj * World :=
  match get_pipeline_name c pipeline_root_path w with
  | Raise e => (Raise e, w)
  | Return name0 =>
      let self := {| _pipeline_root_path := pipeline_root_path;
                     _profile := profile;
                     _name := name0;
                     _steps := [];
                     _template := None |} in
      match _resolve_pipeline_steps (self, w) with
      | (Raise e, (_, w')) => (Raise e, w')
      | (Return steps, (self, w')) =>
          let self := set_steps steps self in
          match get_pipeline_config c pipeline_root_path profile w' with
          | Raise e => (Raise e, w')
          | Return config =>
              (Return {| _pipeline_root_path := pipeline_root_path;
                         _profile := profile;
                         _name := name0;
                         _steps := _steps self;
                         _template := config !! "template" |}, w')
          end
      end
  end.

(** [self._get_step(step)] on the steps [self] holds now. *)
Definition get_step_of_self (step_name : string) : M BaseStep :=
  self <- self_ ;;
  lift (_get_step (_steps self) step_name).

(** Lines 121-135, [_BasePipeline.inspect]. *)
Definition inspect (step : option string) : M unit :=
  steps <- _resolve_pipeline_steps ;;
  assign_steps steps ;;;
  self <- self_ ;;
  if negb (py_truthy step) then
    calls (display_pipeline_dag c self)
  else
    let step_name := default EmptyString step in
    output_directory <-
      calls (get_step_output_path c (_pipeline_root_path self) step_name EmptyString) ;;
    found <- get_step_of_self step_name ;;
    calls (step_inspect c found output_directory).

(** Lines 86-104 of [_BasePipeline.run]: everything up to reading the
    execution state of the last executed step. *)
Definition run_until_state (step : option string) : M (BaseStep * StepExecutionState) :=
  steps <- _resolve_pipeline_steps ;;
  assign_steps steps ;;;
  target_step <-
    (if py_truthy step then get_step_of_self (default EmptyString step)
     else self <- self_ ;; lift (_get_default_step c self)) ;;
  self <- self_ ;;
  last_executed_step <-
    calls (run_pipeline_step c (_pipeline_root_path self)
             (_get_subgraph_for_target_step (_steps self) target_step)
             target_step (_template self)) ;;
  inspect (Some (name last_executed_step)) ;;;
  self <- self_ ;;
  last_executed_step_output_directory <-
    calls (get_step_output_path c (_pipeline_root_path self)
             (name last_executed_step) EmptyString) ;;
  last_executed_step_state <-
    reads (get_execution_state c last_executed_step last_executed_step_output_directory) ;;
  ret (last_executed_step, last_executed_step_state).

(** The two messages of lines 107-119. *)
Definition run_failure_message (step : option string) (pipeline_name : string)
  (last_executed_step : BaseStep) (last_executed_step_state : StepExecutionState) : string :=
  (match step with
   | Some step0 =>
       "Failed to run step '" +:+ step0 +:+ "' of pipeline '" +:+ pipeline_name +:+ "'."
   | None => "Failed to run pipeline '" +:+ pipeline_name +:+ "'."
   end)
  +:+ " An error was encountered while running step '" +:+ name last_executed_step +:+ "': "
  +:+ py_format_optional (stack_trace last_executed_step_state).

(** Lines 105-119 of [_BasePipeline.run]: the verification. *)
Definition run_verify (step : option string)
  (last : BaseStep * StepExecutionState) : M unit :=
  let '(last_executed_step, last_executed_step_state) := last in
  if negb (bool_decide (status last_executed_step_state = SUCCEEDED)) then
    self <- self_ ;;
    raise (MlflowException
             (run_failure_message step (_name self) last_executed_step
                last_executed_step_state)
             (Some BAD_REQUEST))
  else ret tt.

(** Lines 75-119, [_BasePipeline.run]. *)
Definition run (step : option string) : M unit :=
  last <- run_until_state step ;;
  run_verify step last.

(** Lines 137-149, [_BasePipeline.clean]. *)
Definition clean (step : option string) : M unit :=
  self <- self_ ;;
  to_clean <-
    (if negb (py_truthy step) then ret (_steps self)
     else found <- get_step_of_self (default EmptyString step) ;; ret [found]) ;;
  calls (clean_execution_state c (_pipeline_root_path self) to_clean).

End Orchestration.

Arguments ConfigValue : clear implicits.
Arguments PipelineObj : clear implicits.
Arguments Collaborators : clear implicits.

(** *** A small world to run the entry points in

    The configuration declares one step, by name; the execution directory
    records one execution state, the same for every step; the world logs
    what [clean_execution_state] was asked to clean. *)

Record DemoWorld : Type := {
  declared_step : string;
  recorded_status : StepStatus;
  recorded_trace : option string;
  cleaned : list (list BaseStep);
}.

Definition demo_step_class (pipeline_config : gmap string (ConfigValue unit))
  (pipeline_root : string) : result BaseStep :=
  match pipeline_config !! "step" with
  | Some (StrValue n) => Return {| name := n; step_class := TRAINING; get_artifacts := [] |}
  | _ => Raise (MlflowException "Missing step config in pipeline config."
                  (Some INVALID_PARAMETER_VALUE))
  end.

Definition demo : Collaborators DemoWorld unit := {|
  get_pipeline_name := fun _ _ => Return "demo";
  get_pipeline_config := fun _ _ w => Return {[ "step" := StrValue (declared_step w) ]};
  _get_step_classes := [demo_step_class];
  _get_default_step := fun self => py_getitem (_steps self) 0;
  run_pipeline_step := fun _ _ target_step _ w => (Return target_step, w);
  get_step_output_path := fun root step_name relative_path w =>
    (Return (root +:+ "/steps/" +:+ step_name +:+ "/outputs/" +:+ relative_path), w);
  get_execution_state := fun _ _ w =>
    Return {| status := recorded_status w;
              last_updated_timestamp := 0;
              stack_trace := recorded_trace w |};
  step_inspect := fun _ _ w => (Return tt, w);
  display_pipeline_dag := fun _ w => (Return tt, w);
  clean_execution_state := fun _ steps w =>
    (Return tt, {| declared_step := declared_step w;
                   recorded_status := recorded_status w;
                   recorded_trace := recorded_trace w;
                   cleaned := cleaned w ++ [steps] |});
|}.

(** The configuration declares [step_name]; nothing was cleaned yet. *)
Definition demo_world (step_name : string) (st : StepStatus) (trace : option string)
  : DemoWorld :=
  {| declared_step := step_name; recorded_status := st; recorded_trace := trace;
     cleaned := [] |}.

(** The pipeline object that [__init__] built while the configuration
    declared the step [ingest]. *)
Definition demo_pipeline : PipelineObj unit :=
  {| _pipeline_root_path := "root";
     _profile := "local";
     _name := "demo";
     _steps := [ {| name := "ingest"; step_class := TRAINING; get_artifacts := [] |} ];
     _template := None |}.

(** A step as the test helpers declare it: its [step_class()] returns
    [StepClass.UNKNOWN]. *)
Definition unknown_class_step : BaseStep :=
  {| name := "test_step"; step_class := UNKNOWN; get_artifacts := [] |}.

(** The split step with the artifacts [split.py] declares. *)
Definition split_step : BaseStep :=
  {| name := "split"; step_class := TRAINING;
     get_artifacts := [ {| artifact_name := "training_data" |};
                        {| artifact_name := "validation_data" |};
                        {| artifact_name := "test_data" |} ] |}.

End Pipeline.

(** ** [mlflow/pipelines/steps/split.py] *)

Module Split.

(** A Python [float] is an IEEE 754 binary64 number: the specification
    floats of the standard library at precision 53 and maximal exponent
    1024, with round-to-nearest-even arithmetic. *)
Abbreviation pyfloat := spec_float.

Definition float_add (x y : pyfloat) : pyfloat := SFadd 53 1024 x y.

Definition is_zero (x : pyfloat) : bool :=
  match x with
  | S754_zero _ => true
  | _ => false
  end.

(** [x / y]: Python raises on a zero divisor, and otherwise divides as
    IEEE 754 does (infinities and NaN included). *)
Definition float_truediv (x y : pyfloat) : result pyfloat :=
  if is_zero y then Raise (BuiltinError "ZeroDivisionError" "float division by zero")
  else Return (SFdiv 53 1024 x y).

(** [x < y], [x <= y], [x >= y]: false as soon as one side is NaN. *)
Definition float_lt (x y : pyfloat) : bool := SFltb x y.
Definition float_le (x y : pyfloat) : bool := SFleb x y.
Definition float_ge (x y : pyfloat) : bool := SFleb y x.

Definition float_zero : pyfloat := S754_zero false.
Definition float_one : pyfloat := S754_finite false 4503599627370496 (-52).

(** [input_df[mask]]: the rows whose mask entry is [True], in order.  The
    mask is a boolean Series; rows and mask entries are labelled by their
    position.  With one entry per row, as the buckets computed from
    [input_df] have, the mask is used as it is.  Otherwise pandas aligns the
    mask on the labels of the dataframe: the entries past the last row are
    dropped (with a [UserWarning], which is no log record), and a row without
    an entry is an [IndexingError]. *)
Fixpoint select_rows {Row : Type} (input_df : list Row) (mask : list bool)
  : result (list Row) :=
  match input_df, mask with
  | [], _ => Return []
  | row :: rows, keep :: mask' =>
      bind (select_rows rows mask') (fun rest =>
      Return (if keep then row :: rest else rest))
  | _ :: _, [] =>
      Raise (BuiltinError "IndexingError"
               ("Unalignable boolean Series provided as indexer (index of the boolean "
                +:+ "Series and of the indexed object do not match)."))
  end.

(** Lines 42-45 of [_get_split_df]: the two bucket boundaries. *)
Definition bucket_ends (split_ratios : pyfloat * pyfloat * pyfloat)
  : result (pyfloat * pyfloat) :=
  let '(train_ratio, validation_ratio, test_ratio) := split_ratios in
  let ratio_sum := float_add (float_add train_ratio validation_ratio) test_ratio in
  bind (float_truediv train_ratio ratio_sum) (fun train_bucket_end =>
  bind (float_truediv (float_add train_ratio validation_ratio) ratio_sum)
    (fun validation_bucket_end =>
  Return (train_bucket_end, validation_bucket_end))).

(** Lines 52-62: the names of the empty splits, and the warning logged when
    there is one. *)
Definition empty_splits {Row : Type} (train_df validation_df test_df : list Row)
  : list string :=
  map fst
    (filter (fun named => length (snd named) = 0)
       [("train split", train_df); ("validation split", validation_df);
        ("test split", test_df)]).

Definition empty_splits_warning (names : list string) : list string :=
  if decide (0 < length names) then
    ["The following input dataset splits are empty: " +:+ String.concat "," names +:+ "."]
  else [].

(** Lines 40-63, [_get_split_df]: the three dataframes, and what was
    logged. *)
Definition _get_split_df {Row : Type} (input_df : list Row) (hash_buckets : list pyfloat)
  (split_ratios : pyfloat * pyfloat * pyfloat)
  : result (list Row * list Row * list Row * list string) :=
  bind (bucket_ends split_ratios) (fun ends =>
  let '(train_bucket_end, validation_bucket_end) := ends in
  bind (select_rows input_df
          (map (fun x => float_lt x train_bucket_end) hash_buckets)) (fun train_df =>
  bind (select_rows input_df
          (map (fun x => float_le train_bucket_end x && float_lt x validation_bucket_end)
             hash_buckets)) (fun validation_df =>
  bind (select_rows input_df
          (map (fun x => float_ge x validation_bucket_end) hash_buckets)) (fun test_df =>
  Return (train_df, validation_df, test_df,
          empty_splits_warning (empty_splits train_df validation_df test_df)))))).

(** The floats that are numbers, placed on a line: a sign class, then the
    exponent and the mantissa (negated for the negative floats).  The
    comparison of two numbers is the lexicographic comparison of their
    places; NaN has no place. *)
Definition float_key (x : pyfloat) : option (Z * Z * Z) :=
  match x with
  | S754_zero _ => Some (0, 0, 0)%Z
  | S754_infinity false => Some (2, 0, 0)%Z
  | S754_infinity true => Some (-2, 0, 0)%Z
  | S754_nan => None
  | S754_finite false m e => Some (1, e, Z.pos m)%Z
  | S754_finite true m e => Some (-1, - e, Z.neg m)%Z
  end.

Definition lex_cmp (k1 k2 : Z * Z * Z) : comparison :=
  let '(a1, a2, a3) := k1 in
  let '(b1, b2, b3) := k2 in
  match (a1 ?= b1)%Z with
  | Eq => match (a2 ?= b2)%Z with
          | Eq => (a3 ?= b3)%Z
          | cmp => cmp
          end
  | cmp => cmp
  end.

Definition lex_lt (k1 k2 : Z * Z * Z) : Prop :=
  let '(a1, a2, a3) := k1 in
  let '(b1, b2, b3) := k2 in
  (a1 < b1 \/ (a1 = b1 /\ (a2 < b2 \/ (a2 = b2 /\ a3 < b3))))%Z.

(** Exactly one of three mask entries is set. *)
Definition exactly_one (m1 m2 m3 : bool) : Prop :=
  (m1 = true /\ m2 = false /\ m3 = false) \/
  (m1 = false /\ m2 = true /\ m3 = false) \/
  (m1 = false /\ m2 = false /\ m3 = true).

(** A hash bucket is a number of [[0, 1)]. *)
Definition in_unit_interval (x : pyfloat) : bool :=
  float_le float_zero x && float_lt x float_one.

(** Some floats: 0.5, 0.75, 0.125, and 2^1023 (about 8.99e307, a finite
    float). *)
Definition float_half : pyfloat := S754_finite false 4503599627370496 (-53).
Definition float_0_75 : pyfloat := S754_finite false 6755399441055744 (-53).
Definition float_0_125 : pyfloat := S754_finite false 4503599627370496 (-55).
Definition float_2p1023 : pyfloat := S754_finite false 4503599627370496 971.

End Split.

(** ** The execution plan of [mlflow/pipelines/utils/execution.py]

    The module is not among the files at hand: its tests are
    ([tests/pipelines/test_execution_utils.py]), and they fix the shape of the
    two lines the plan looks for. *)

Module ExecutionPlan.

Definition newline : string := String (ascii_of_nat 10) EmptyString.

(** The line a step's rule prints when it starts, as the test writes it. *)
Definition start_line (step_name : string) : string :=
  "# Run MLP step: " +:+ step_name +:+ newline.

(** The line the runner prints when the target needs nothing, as the test
    writes it. *)
Definition up_to_date_line (target : string) : string :=
  "make: `" +:+ target +:+ "' is up to date.".

(** What one line of the output tells: a step of the expected sequence
    started (its index in the sequence), or the runner had nothing to do for
    the target. *)
Inductive Signal : Set :=
  | StepStarted (index : nat)
  | NothingToDo.

(** Modelled from the spec: the line matcher of [_ExecutionPlan], which is
    missing.  Only the names of the relevant steps are matched; any other
    line tells nothing. *)
Definition signal_of_line (target : string) (train_subgraph : list string) (line : string)
  : option Signal :=
  match list_find (fun step_name => line = start_line step_name) train_subgraph with
  | Some (index, _) => Some (StepStarted index)
  | None => if decide (line = up_to_date_line target) then Some NothingToDo else None
  end.

(** Modelled from the spec: the scan of [_ExecutionPlan] over the output
    lines, which is missing.  The lines are read in order and the first one
    that tells something decides. *)
Fixpoint first_signal (target : string) (train_subgraph lines : list string)
  : option Signal :=
  match lines with
  | [] => None
  | line :: rest =>
      match signal_of_line target train_subgraph line with
      | Some signal => Some signal
      | None => first_signal target train_subgraph rest
      end
  end.

(** The steps up to and including the target. *)
Definition through_target (target : string) (train_subgraph : list string) : list string :=
  match list_find (fun step_name => step_name = target) train_subgraph with
  | Some (index, _) => take (S index) train_subgraph
  | None => train_subgraph
  end.

(** Modelled from the spec: [_ExecutionPlan(target, lines, train_subgraph).steps_cached],
    which is missing.  When the runner had nothing to do, every step up to
    and including the target is cached; when a step started, the steps
    strictly before it are.  The spec gives no rule for an output without any
    signal: as no step was seen to start, the model counts the steps up to
    the target as cached. *)
Definition steps_cached (target : string) (lines train_subgraph : list string)
  : list string :=
  match first_signal target train_subgraph lines with
  | Some (StepStarted index) => take index train_subgraph
  | Some NothingToDo => through_target target train_subgraph
  | None => through_target target train_subgraph
  end.

(** The step names of the test. *)
Definition train_subgraph_of_test : list string :=
  ["ingest"; "split"; "transform"; "train"; "evaluate"; "register"].

End ExecutionPlan.

(** ** The execution directory of [mlflow/pipelines/utils/execution.py]

    [_get_or_create_execution_directory] is not among the files at hand; its
    tests are.  The model below follows section 4.3 of the specification and
    the order of effects that [test_get_or_create_execution_directory_is_idempotent]
    observes. *)

Module ExecutionDirectory.

(** A path is the list of its components, from the root of the file
    system; the empty path is the root. *)
Abbreviation path := (list string).

Inductive Node : Set :=
  | Dir
  | File (content : string).

#[global] Instance Node_eq_dec : EqDecision Node.
Proof. solve_decision. Defined.

Abbreviation FileSystem := (gmap (list string) Node).

(** The operations the manager performs on the file system. *)
Inductive FsOp : Set :=
  | MakeDirs (p : path)
    (** [os.makedirs(p, exist_ok=True)] *)
  | CreateIfMissing (p : path) (content : string)
    (** a stub, written only when nothing exists at [p] *)
  | WriteFile (p : path) (content : string).
    (** [open(p, "w").write(content)] *)

Definition parent (p : path) : path := take (length p - 1) p.

(** The directories [os.makedirs] creates: every ancestor of [p] below the
    root, and [p]. *)
Definition ancestors_and_self (p : path) : list path :=
  map (fun k => take k p) (seq 1 (length p)).

Definition is_dir_at (fs : FileSystem) (p : path) : bool :=
  bool_decide (p = []) ||
  match fs !! p with
  | Some Dir => true
  | _ => false
  end.

Definition is_file_at (fs : FileSystem) (p : path) : bool :=
  match fs !! p with
  | Some (File _) => true
  | _ => false
  end.

Definition make_dirs (ps : list path) (fs : FileSystem) : FileSystem :=
  foldr (fun q acc => <[q := Dir]> acc) fs ps.

(** One operation: the file system after it, or the error it raises. *)
Definition run_op (op : FsOp) (fs : FileSystem) : result FileSystem :=
  match op with
  | MakeDirs p =>
      if existsb (is_file_at fs) (ancestors_and_self p) then
        Raise (BuiltinError "FileExistsError" "File exists")
      else Return (make_dirs (ancestors_and_self p) fs)
  | CreateIfMissing p content =>
      if bool_decide (p = []) || bool_decide (is_Some (fs !! p)) then Return fs
      else if is_dir_at fs (parent p) then Return (<[p := File content]> fs)
      else Raise (BuiltinError "FileNotFoundError" "No such file or directory")
  | WriteFile p content =>
      if is_dir_at fs p then Raise (BuiltinError "IsADirectoryError" "Is a directory")
      else if is_dir_at fs (parent p) then Return (<[p := File content]> fs)
      else Raise (BuiltinError "FileNotFoundError" "No such file or directory")
  end.

(** A failure of the infrastructure, injected at the operation of the given
    index (counted from 0): that operation raises instead of running. *)
Abbreviation Fault := (option (nat * PyException)).

Definition next_fault (fault : Fault) : Fault :=
  match fault with
  | Some (S k, e) => Some (k, e)
  | _ => None
  end.

(** The operations in order.  An exception stops the run and leaves the
    file system as it is at that point. *)
Fixpoint run_ops (ops : list FsOp) (fault : Fault) (fs : FileSystem)
  : result unit * FileSystem :=
  match ops with
  | [] => (Return tt, fs)
  | op :: rest =>
      match fault with
      | Some (0, e) => (Raise e, fs)
      | _ =>
          match run_op op fs with
          | Return fs' => run_ops rest (next_fault fault) fs'
          | Raise e => (Raise e, fs)
          end
      end
  end.

(** The paths an operation overwrites. *)
Definition written (op : FsOp) : list path :=
  match op with
  | WriteFile p _ => [p]
  | _ => []
  end.

(** The paths written by the operations of a sequence. *)
Definition writes (ops : list FsOp) : list path := concat (map written ops).

(** An operation is done in [fs] when [fs] already shows its result. *)
Definition done_in (fs : FileSystem) (op : FsOp) : Prop :=
  match op with
  | MakeDirs p => Forall (fun q => fs !! q = Some Dir) (ancestors_and_self p)
  | CreateIfMissing p _ => p = [] \/ is_Some (fs !! p)
  | WriteFile p content =>
      p <> [] /\ fs !! p = Some (File content) /\ is_dir_at fs (parent p) = true
  end.

Section Manager.

(** What the missing module fixes and the specification leaves open: where
    the execution directory of a pipeline root lives, the stubs a template
    requires under [steps/] of the pipeline root, and the text of the build
    description. *)
Variable execution_dir_of : path -> path.
Variable required_step_files : string -> list string.
Variable makefile_text : path -> list string -> string -> string.

(** Modelled from the spec: the stages of [_get_or_create_execution_directory]
    (section 4.3), which is missing: the execution directory; the scaffold of
    step-definition stubs, each created on its own and only when missing; the
    build description, written anew on every call; one output directory per
    step, each created on its own. *)
Definition ensure_ops (pipeline_root : path) (step_names : list string) (template : string)
  : list FsOp :=
  let execution_dir := execution_dir_of pipeline_root in
  [MakeDirs execution_dir]
  ++ MakeDirs (pipeline_root ++ ["steps"])
     :: map (fun f => CreateIfMissing (pipeline_root ++ ["steps"; f]) EmptyString)
          (required_step_files template)
  ++ [WriteFile (execution_dir ++ ["Makefile"])
        (makefile_text pipeline_root step_names template)]
  ++ map (fun n => MakeDirs (execution_dir ++ ["steps"; n; "outputs"])) step_names.

(** Modelled from the spec: [_get_or_create_execution_directory(pipeline_root_path,
    pipeline_steps, template)], which is missing.  It returns the path of the
    execution directory; an exception of a stage propagates. *)
Definition _get_or_create_execution_directory
  (pipeline_root : path) (step_names : list string) (template : string)
  (fault : Fault) (fs : FileSystem) : result path * FileSystem :=
  match run_ops (ensure_ops pipeline_root step_names template) fault fs with
  | (Return _, fs') => (Return (execution_dir_of pipeline_root), fs')
  | (Raise e, fs') => (Raise e, fs')
  end.

(** Modelled from the spec: the pieces a completed call leaves in place
    (section 4.3, and what the test looks for after a retry): the execution
    directory; the [steps] directory of the pipeline root with every stub the
    template requires; the build description, holding its text; and, under
    [steps] of the execution directory, one output directory per step. *)
Definition scaffold_in_place (pipeline_root : path) (step_names : list string)
  (template : string) (fs : FileSystem) : Prop :=
  let execution_dir := execution_dir_of pipeline_root in
  is_dir_at fs execution_dir = true /\
  fs !! (pipeline_root ++ ["steps"]) = Some Dir /\
  Forall (fun f => is_Some (fs !! (pipeline_root ++ ["steps"; f])))
    (required_step_files template) /\
  fs !! (execution_dir ++ ["Makefile"])
  = Some (File (makefile_text pipeline_root step_names template)) /\
  Forall (fun n => fs !! (execution_dir ++ ["steps"]) = Some Dir /\
                   fs !! (execution_dir ++ ["steps"; n; "outputs"]) = Some Dir)
    step_names.

End Manager.

(** *** The setting of the tests *)

Definition test_execution_dir_of (pipeline_root : path) : path :=
  ["home"; ".mlflow"; "pipelines"; String.concat "/" pipeline_root].

(** The stubs [test_create_required_step_files] checks for. *)
Definition test_required_step_files (template : string) : list string :=
  ["ingest.py"; "split.py"; "train.py"; "transform.py"; "custom_metrics.py"].

Definition test_makefile_text (pipeline_root : path) (step_names : list string)
  (template : string) : string :=
  "# " +:+ template +:+ ": " +:+ String.concat " " step_names.

Definition test_ensure : Fault -> FileSystem -> result path * FileSystem :=
  _get_or_create_execution_directory test_execution_dir_of test_required_step_files
    test_makefile_text ["tmp"] ["test_step"] "regression/v1".

(** The file system of the test before the first call: the temporary
    directory and the home directory exist. *)
Definition test_fs : FileSystem :=
  {[ ["tmp"] := Dir; ["home"] := Dir ]}.

Definition injected_failure (message : string) : PyException :=
  BuiltinError "Exception" message.

(** The entries of [fs] strictly below [dir]. *)
Definition entries_below (dir : path) (fs : FileSystem) : list path :=
  filter (fun q => dir `prefix_of` q /\ q <> dir) (map fst (map_to_list fs)).

End ExecutionDirectory.

(** ** The orchestration driver of [mlflow/pipelines/utils/execution.py]

    [run_pipeline_step] is not among the files at hand; its tests are.  The
    model follows sections 3, 4.5 and 4.6 of the specification.  The external
    runner and the steps it executes are collaborators: what a step produces,
    or the trace it fails with, is given by [execute]. *)

Module Execution.
Import Pipeline ExecutionPlan.

(** Modelled from the spec: a step as the driver sees it (section 3): its
    name, its classification, whether it is an ingest step, and the
    fingerprint of its resolved configuration.  Its position is its index in
    the step list. *)
Record StepDescriptor : Set := {
  step_name : string;
  classification : StepClass;
  ingest_class : bool;
  config_fingerprint : Z;
}.

#[global] Instance StepDescriptor_eq_dec : EqDecision StepDescriptor.
Proof. solve_decision. Defined.

(** The output directory of one step: the execution state record, the
    output files with their modification times, and the fingerprint of the
    configuration the files were produced from. *)
Record StepDirectory : Set := {
  exec_state : StepExecutionState;
  outputs : list (string * Z);
  built_with : option Z;
}.

(** The step directories of the execution directory, by step name.  A
    step without an entry has no state record and no output. *)
Abbreviation Store := (gmap string StepDirectory).

Definition unknown_state : StepExecutionState :=
  {| status := StatusUNKNOWN; last_updated_timestamp := 0; stack_trace := None |}.

Definition empty_directory : StepDirectory :=
  {| exec_state := unknown_state; outputs := []; built_with := None |}.

Definition directory_of (store : Store) (n : string) : StepDirectory :=
  default empty_directory (store !! n).



(** What executing a step gives: the files it writes, or the trace of its
    failure. *)
Inductive StepOutcome : Set :=
  | Produced (files : list string)
  | Crashed (trace : string).

(** The failure the runner reports: the step it stopped at and the captured
    error text. *)
Abbreviation Failure := (option (string * string)).

Definition failed_step (failure : Failure) : option string := fst <$> failure.

(** The steps up to and including the one named [n]. *)
Definition through (n : string) (steps : list StepDescriptor) : list StepDescriptor :=
  match list_find (fun s => step_name s = n) steps with
  | Some (index, _) => take (S index) steps
  | None => steps
  end.

(** The steps positioned after the one named [n]. *)
Definition steps_after (n : string) (steps : list StepDescriptor) : list StepDescriptor :=
  match list_find (fun s => step_name s = n) steps with
  | Some (index, _) => drop (S index) steps
  | None => []
  end.

(** Modelled from the spec: the caching decision of the external runner.
    A step's outputs are reused when they were produced from the step's
    current configuration; an ingest step that is the target is never
    reused. *)
Definition reusable (store : Store) (target step : StepDescriptor) : bool :=
  negb (ingest_class step && bool_decide (step_name step = step_name target))
  && bool_decide (built_with (directory_of store (step_name step))
                  = Some (config_fingerprint step)).


(** Modelled from the spec: the state recorded for the step named [n]
    (section 4.6, step 5).  The step the runner stopped at is FAILED with the
    captured text; a step executed before it is SUCCEEDED. *)
Definition marked_state (now : Z) (failure : Failure) (n : string) : StepExecutionState :=
  match failure with
  | Some (n', trace) =>
      if decide (n' = n)
      then {| status := FAILED; last_updated_timestamp := now; stack_trace := Some trace |}
      else {| status := SUCCEEDED; last_updated_timestamp := now; stack_trace := None |}
  | None => {| status := SUCCEEDED; last_updated_timestamp := now; stack_trace := None |}
  end.

(** Modelled from the spec: the steps taken as executed among those the plan
    does not count as cached (section 4.6, step 5): all of them, or those up
    to the step the runner stopped at. *)
Definition attempted_of (failure : Failure) (fresh : list StepDescriptor)
  : list StepDescriptor :=
  match failure with
  | Some (n, _) => through n fresh
  | None => fresh
  end.

Definition write_outputs (now : Z) (step : StepDescriptor) (files : list string)
  (store : Store) : Store :=
  <[step_name step :=
      {| exec_state := exec_state (directory_of store (step_name step));
         outputs := map (fun f => (f, now)) files;
         built_with := Some (config_fingerprint step) |}]> store.

Definition discard_outputs (step : StepDescriptor) (store : Store) : Store :=
  <[step_name step :=
      {| exec_state := exec_state (directory_of store (step_name step));
         outputs := [];
         built_with := None |}]> store.

Definition set_state (step : StepDescriptor) (st : StepExecutionState) (store : Store)
  : Store :=
  <[step_name step :=
      {| exec_state := st;
         outputs := outputs (directory_of store (step_name step));
         built_with := built_with (directory_of store (step_name step)) |}]> store.

Section Driver.

Variable execute : StepDescriptor -> Store -> StepOutcome.

(** Modelled from the spec: the external runner executing the rules of the
    given steps in order (section 6).  Each rule prints its start line; a
    failing step stops the run. *)
Fixpoint execute_rules (now : Z) (rules : list StepDescriptor) (store : Store)
  : list string * Failure * Store :=
  match rules with
  | [] => ([], None, store)
  | step :: rest =>
      match execute step store with
      | Produced files =>
          let '(lines, failure, store') :=
            execute_rules now rest (write_outputs now step files store) in
          (start_line (step_name step) :: lines, failure, store')
      | Crashed trace =>
          ([start_line (step_name step)], Some (step_name step, trace),
           discard_outputs step store)
      end
  end.

(** Modelled from the spec: the external runner building the target's rule.
    The first step of the chain that cannot be reused is executed, and every
    step after it up to the target; when every step can be reused the runner
    prints the up-to-date line. *)
Definition run_rules (now : Z) (pipeline_steps : list StepDescriptor)
  (target : StepDescriptor) (store : Store) : list string * Failure * Store :=
  let chain := through (step_name target) pipeline_steps in
  match list_find (fun s => reusable store target s = false) chain with
  | Some (index, _) => execute_rules now (drop index chain) store
  | None => ([up_to_date_line (step_name target)], None, store)
  end.

(** Modelled from the spec: the marking of section 4.6, step 5. *)
Definition mark (now : Z) (failure : Failure) (step : StepDescriptor) (store : Store)
  : Store :=
  set_state step (marked_state now failure (step_name step)) store.

(** A step that was executed in this run and did not fail. *)
Definition just_succeeded (attempted : list StepDescriptor) (failure : Failure)
  (step : StepDescriptor) : bool :=
  bool_decide (step_name step ∈ map step_name attempted)
  && negb (bool_decide (failed_step failure = Some (step_name step))).

(** Modelled from the spec: the state invalidation of section 4.5 after the
    step [executed] completed.  Every step positioned after it that shares
    its classification loses its state record and its outputs, unless it was
    itself just executed and succeeded. *)
Definition invalidate_after (pipeline_steps attempted : list StepDescriptor)
  (failure : Failure) (executed : StepDescriptor) (store : Store) : Store :=
  foldr (fun downstream acc => delete (step_name downstream) acc) store
    (filter (fun downstream =>
               classification downstream = classification executed /\
               just_succeeded attempted failure downstream = false)
       (steps_after (step_name executed) pipeline_steps)).

(** Modelled from the spec: [run_pipeline_step(pipeline_root_path,
    pipeline_steps, target_step, template)] (section 4.6), which is missing.
    It returns the last executed step (the target when nothing ran) and
    leaves the step directories updated.  The runner's non-zero exit is not
    raised. *)
Definition run_pipeline_step (now : Z) (pipeline_steps : list StepDescriptor)
  (target : StepDescriptor) (store : Store) : StepDescriptor * Store :=
  match pipeline_steps with
  | [] => (target, store)
  | _ =>
      let '(lines, failure, store1) := run_rules now pipeline_steps target store in
      let cached := steps_cached (step_name target) lines (map step_name pipeline_steps) in
      let fresh :=
        filter (fun s => step_name s ∉ cached) (through (step_name target) pipeline_steps) in
      let attempted := attempted_of failure fresh in
      let store2 := foldl (fun acc s => mark now failure s acc) store1 attempted in
      let store3 :=
        foldl (fun acc s => invalidate_after pipeline_steps attempted failure s acc)
          store2 attempted in
      (default target (last attempted), store3)
  end.

End Driver.

(** *** The pipeline of the tests: ingest, split, transform *)

Definition ingest_step : StepDescriptor :=
  {| step_name := "ingest"; classification := TRAINING; ingest_class := true;
     config_fingerprint := 1 |}.

Definition split_step : StepDescriptor :=
  {| step_name := "split"; classification := TRAINING; ingest_class := false;
     config_fingerprint := 2 |}.

Definition transform_step : StepDescriptor :=
  {| step_name := "transform"; classification := TRAINING; ingest_class := false;
     config_fingerprint := 3 |}.

Definition test_pipeline : list StepDescriptor := [ingest_step; split_step; transform_step].

(** Every step succeeds and writes one file. *)
Definition test_execute (step : StepDescriptor) (store : Store) : StepOutcome :=
  Produced [step_name step +:+ ".parquet"].

(** The ingest step of the tests that is configured with a bad location,
    and the split step configured with other ratios. *)
Definition bad_ingest_step : StepDescriptor :=
  {| step_name := "ingest"; classification := TRAINING; ingest_class := true;
     config_fingerprint := 9 |}.

Definition updated_split_step : StepDescriptor :=
  {| step_name := "split"; classification := TRAINING; ingest_class := false;
     config_fingerprint := 22 |}.

(** The step with the bad location fails; every other step succeeds. *)
Definition test_execute_bad_location (step : StepDescriptor) (store : Store) : StepOutcome :=
  if decide (config_fingerprint step = 9%Z) then Crashed "Traceback (most recent call last)"
  else Produced [step_name step +:+ ".parquet"].

End Execution.

(** ** [pipeline.py]: the error of a failed lookup *)

Module PipelineErrors.

(** Lines 156-158: what [_get_step] raises, for the names [step_names] of
    the steps it searched. *)
Definition step_not_found (step_name : string) (step_names : list string) : PyException :=
  MlflowException
    ("Step " +:+ step_name +:+ " not found in pipeline. Available steps are "
     +:+ py_str_list step_names) None.

End PipelineErrors.

(** ** [pipeline.py]: the factory class [Pipeline] *)

Module Factory.

(** [s.replace(old, new)] when [old] and [new] are one character each. *)
Fixpoint replace_char (old new : ascii) (s : string) : string :=
  match s with
  | EmptyString => EmptyString
  | String ch rest =>
      String (if decide (ch = old) then new else ch) (replace_char old new rest)
  end.

(** Lines 440-441: the name of the class that implements a template. *)
Definition pipeline_class_name (template : string) : string :=
  let template_path := replace_char "@" "." (replace_char "/" "." template) in
  "mlflow.pipelines." +:+ template_path +:+ ".PipelineImpl".

(** [isinstance(e, ModuleNotFoundError)] *)
Definition is_module_not_found (e : PyException) : bool :=
  match e with
  | BuiltinError type_name _ => bool_decide (type_name = "ModuleNotFoundError")
  | MlflowException _ _ => false
  end.

Section New.

Context {World Opaque Instance : Type}.

(** A value of the configuration mapping, as [__new__] looks at it: a
    string, [None], or anything else. *)
Inductive YamlValue : Type :=
  | YamlStr (s : string)
  | YamlNone
  | YamlOther (o : Opaque).

(** What [__new__] calls outside this file. *)
Record FactoryCollaborators : Type := {
  (** [get_pipeline_root_path()] *)
  get_pipeline_root_path : World -> result string;
  (** [get_pipeline_config(pipeline_root_path=..., profile=...)] *)
  read_pipeline_config : string -> string -> World -> result (gmap string YamlValue);
  (** [_get_class_from_string(class_name)]: the class, as its constructor
      [cls(pipeline_root_path, profile)] *)
  _get_class_from_string :
    string -> World -> result (string -> string -> World -> result Instance * World);
  (** [get_pipeline_name(pipeline_root_path)] *)
  read_pipeline_name : string -> World -> result string;
  (** [repr(e)] *)
  repr_exception : PyException -> string;
  (** what [template.replace("/", ".")] raises when the template is no [str] *)
  replace_raises : Opaque -> PyException;
}.

Variable c : FactoryCollaborators.

(** Lines 387-460, [Pipeline.__new__].  What [_get_class_from_string]
    raises is taken to be an [Exception], as the handler of line 445 expects;
    the message logged at line 459 is left out. *)
Definition __new__ (profile : option string) (w : World) : result Instance * World :=
  if negb (py_truthy profile) then
    (Raise (MlflowException
              "A profile name must be provided to construct a valid Pipeline object."
              (Some INVALID_PARAMETER_VALUE)), w)
  else
    let profile := default EmptyString profile in
    match get_pipeline_root_path c w with
    | Raise e => (Raise e, w)
    | Return pipeline_root_path =>
        if py_contains " " pipeline_root_path then
          (Raise (MlflowException
                    ("Pipeline directory path cannot contain spaces. Please move or rename your"
                     +:+ " pipeline directory. Current path: " +:+ pipeline_root_path)
                    (Some INVALID_PARAMETER_VALUE)), w)
        else
          match read_pipeline_config c pipeline_root_path profile w with
          | Raise e => (Raise e, w)
          | Return pipeline_config =>
              match pipeline_config !! "template" with
              | None | Some YamlNone =>
                  (Raise (MlflowException
                            ("The `template` property needs to be defined in the `pipeline.yaml` file."
                             +:+ "For example: `template: regression/v1`")
                            (Some INVALID_PARAMETER_VALUE)), w)
              | Some (YamlOther o) => (Raise (replace_raises c o), w)
              | Some (YamlStr template) =>
                  let class_name := pipeline_class_name template in
                  match _get_class_from_string c class_name w with
                  | Raise e =>
                      if is_module_not_found e then
                        (Raise (MlflowException
                                  ("Failed to find Pipeline " +:+ class_name +:+ "."
                                   +:+ "Please check the correctness of the pipeline template setting: "
                                   +:+ template)
                                  (Some INVALID_PARAMETER_VALUE)), w)
                      else
                        (Raise (MlflowException
                                  ("Failed to construct Pipeline " +:+ class_name
                                   +:+ ". Error: " +:+ repr_exception c e)
                                  (Some INTERNAL_ERROR)), w)
                  | Return pipeline_class_module =>
                      match read_pipeline_name c pipeline_root_path w with
                      | Raise e => (Raise e, w)
                      | Return pipeline_name =>
                          pipeline_class_module pipeline_root_path profile w
                      end
                  end
              end
          end
    end.

End New.

Arguments YamlValue : clear implicits.
Arguments FactoryCollaborators : clear implicits.

(** A world for the factory: the working directory and the template the
    configuration names; only [regression/v1] has a class. *)
Definition demo_factory (root : string) (template : string)
  : FactoryCollaborators unit unit string := {|
  get_pipeline_root_path := fun _ => Return root;
  read_pipeline_config := fun _ _ _ => Return {[ "template" := YamlStr template ]};
  _get_class_from_string := fun class_name _ =>
    if decide (class_name = "mlflow.pipelines.regression.v1.PipelineImpl")
    then Return (fun pipeline_root profile w => (Return (pipeline_root +:+ ":" +:+ profile), w))
    else Raise (BuiltinError "ModuleNotFoundError" ("No module named " +:+ class_name));
  read_pipeline_name := fun _ _ => Return "demo";
  repr_exception := exception_text;
  replace_raises := fun _ => BuiltinError "AttributeError" "object has no attribute replace";
|}.

End Factory.

(** ** [split.py]: the helpers around the split *)

Module SplitHelpers.
Import Split.

(** *** [_create_hash_buckets] *)

(** A non-negative integer as a [float]. *)
Definition float_of_int (n : Z) : pyfloat := binary_normalize 53 1024 n 0 false.

(** Line 19. *)
Definition _SPLIT_HASH_BUCKET_NUM : Z := 1000.

(** The lambda of lines 101-103: the hash is an unsigned 64-bit integer,
    the remainder an integer, the quotient a float. *)
Definition hash_bucket (x : Z) : pyfloat :=
  SFdiv 53 1024 (float_of_int (x mod _SPLIT_HASH_BUCKET_NUM))
    (float_of_int _SPLIT_HASH_BUCKET_NUM).

(** Lines 96-109, [_create_hash_buckets], on the row hashes that
    [_hash_pandas_dataframe] returns.  The debug message, which reports the
    time spent, is left out. *)
Definition _create_hash_buckets (row_hashes : list Z) : list pyfloat :=
  map hash_bucket row_hashes.

(** Line 166: the ratios used when the configuration gives none,
    [[0.75, 0.125, 0.125]]. *)
Definition default_split_ratios : pyfloat * pyfloat * pyfloat :=
  (float_0_75, float_0_125, float_0_125).

(** The rows of [input_df] whose hash satisfies [p], in the order of
    [input_df]; [row_hashes] holds one hash per row. *)
Definition rows_with_hash {Row : Type} (p : Z -> bool) (input_df : list Row)
  (row_hashes : list Z) : list Row :=
  map fst (filter (fun row_hash => p (snd row_hash) = true) (zip input_df row_hashes)).

(** *** [_make_elem_hashable] *)

(** The values [_make_elem_hashable] tells apart: a list, a dict (its
    items in order), a numpy array (its shape, and its elements in C order),
    a tuple, an integer, and any other object, hashable or not. *)
#[warnings="-register-all"]
Inductive PyValue : Set :=
  | PyInt (n : Z)
  | PyOther (is_hashable : bool) (id : nat)
  | PyTuple (xs : list PyValue)
  | PyList (xs : list PyValue)
  | PyDict (items : list (PyValue * PyValue))
  | NdArray (shape : list nat) (flat : list PyValue).

(** Lines 27-37, [_make_elem_hashable]. *)
Fixpoint _make_elem_hashable (elem : PyValue) : PyValue :=
  match elem with
  | PyList xs => PyTuple (map _make_elem_hashable xs)
  | PyDict items =>
      PyTuple (map (fun '(k, v) => PyTuple [_make_elem_hashable k; _make_elem_hashable v])
                 items)
  | NdArray shape flat =>
      PyTuple [PyTuple (map (fun n => PyInt (Z.of_nat n)) shape); PyTuple flat]
  | _ => elem
  end.

(** [hash(v)] does not raise: [v] is an integer, a hashable object, or a
    tuple of such values. *)
Fixpoint hashable (v : PyValue) : bool :=
  match v with
  | PyInt _ => true
  | PyOther is_hashable _ => is_hashable
  | PyTuple xs => forallb hashable xs
  | PyList _ | PyDict _ | NdArray _ _ => false
  end.

(** The values whose unhashable parts are all within reach of
    [_make_elem_hashable]: lists and dicts at any depth of lists and dicts,
    and arrays whose elements are hashable; the tuples and other objects
    among them are hashable as they are. *)
Fixpoint reachable (v : PyValue) : bool :=
  match v with
  | PyInt _ => true
  | PyOther is_hashable _ => is_hashable
  | PyTuple xs => forallb hashable xs
  | PyList xs => forallb reachable xs
  | PyDict items => forallb (fun '(k, v) => reachable k && reachable v) items
  | NdArray _ flat => forallb hashable flat
  end.

(** *** [_validate_user_code_output] *)

Section UserCode.

Context {Data : Type}.

(** A dataframe: its column labels, and its content. *)
Record DataFrame : Type := {
  columns : list string;
  data : Data;
}.

(** One of the objects the user function hands back: a dataframe, or an
    object of another type. *)
Inductive UserObject : Type :=
  | IsDataFrame (df : DataFrame)
  | NotDataFrame.

Definition user_code_error : PyException :=
  MlflowException
    ("Error in cleaning up the data frame post split step."
     +:+ " Expected output is a tuple with (train_df, validation_df, test_df)") None.

(** The body of the loop of lines 127-142, for one split. *)
Definition check_split (post_split_obj : UserObject) (pre_split_df : DataFrame)
  (split_type : string) : result DataFrame :=
  match post_split_obj with
  | NotDataFrame =>
      Raise (MlflowException
               "The split data is not a DataFrame, please return the correct data." None)
  | IsDataFrame post_split_df =>
      if decide (columns pre_split_df <> columns post_split_df) then
        Raise (MlflowException
                 ("The number of columns post split step are different."
                  +:+ " Column list for " +:+ split_type +:+ " dataset pre-slit is "
                  +:+ py_str_list (columns pre_split_df)
                  +:+ " and post split is " +:+ py_str_list (columns post_split_df) +:+ ". "
                  +:+ "Split filter function should be used to filter rows rather than filtering columns.")
                 None)
      else Return post_split_df
  end.

(** Lines 112-148, [_validate_user_code_output].  The user function
    returns the items its result unpacks to, or raises (also when its result
    cannot be unpacked at all); what it raises is taken to be an [Exception],
    as the handler of line 119 expects. *)
Definition _validate_user_code_output
  (post_split : DataFrame -> DataFrame -> DataFrame -> result (list UserObject))
  (train_df validation_df test_df : DataFrame)
  : result (DataFrame * DataFrame * DataFrame) :=
  match post_split train_df validation_df test_df with
  | Return [post_filter_train_df; post_filter_validation_df; post_filter_test_df] =>
      bind (check_split post_filter_train_df train_df "train") (fun a =>
      bind (check_split post_filter_validation_df validation_df "validation") (fun b =>
      bind (check_split post_filter_test_df test_df "test") (fun d =>
      Return (a, b, d))))
  | _ => Raise user_code_error
  end.

End UserCode.

Arguments DataFrame : clear implicits.
Arguments UserObject : clear implicits.

End SplitHelpers.

(* ===================================================================== *)
(** * Part II: theorems                                                   *)
(* ===================================================================== *)

(** ** Strings *)

Module PyFacts.

Lemma app_nil_str (b : string) : EmptyString +:+ b = b.
Proof. reflexivity. Qed.

Lemma app_cons_str (ch : ascii) (a b : string) : String ch a +:+ b = String ch (a +:+ b).
Proof. reflexivity. Qed.

Lemma app_assoc_str (a b d : string) : (a +:+ b) +:+ d = a +:+ (b +:+ d).
Proof.
  induction a as [|ch a IH]; [reflexivity|].
  now rewrite !app_cons_str, IH.
Qed.

Lemma app_nil_r_str (a : string) : a +:+ EmptyString = a.
Proof.
  induction a as [|ch a IH]; [reflexivity|].
  now rewrite app_cons_str, IH.
Qed.

Lemma prefix_app (s post : string) : String.prefix s (s +:+ post) = true.
Proof.
  induction s as [|ch s IH].
  - now destruct post.
  - rewrite app_cons_str. simpl.
    destruct (ascii_dec ch ch); [exact IH | congruence].
Qed.

Lemma py_contains_prefix (s t : string) : String.prefix s t = true -> py_contains s t = true.
Proof. intros H. destruct t; cbn [py_contains]; rewrite H; reflexivity. Qed.

Lemma occurs_in_contains (s t : string) : occurs_in s t -> py_contains s t = true.
Proof.
  intros (pre & post & ->).
  induction pre as [|ch pre IH].
  - rewrite app_nil_str. apply py_contains_prefix, prefix_app.
  - rewrite app_cons_str. cbn [py_contains]. rewrite IH. apply orb_true_r.
Qed.

Lemma occurs_in_refl (s : string) : occurs_in s s.
Proof.
  exists EmptyString, EmptyString.
  now rewrite app_nil_str, app_nil_r_str.
Qed.

Lemma occurs_in_app_l (s t a : string) : occurs_in s t -> occurs_in s (a +:+ t).
Proof.
  intros (pre & post & ->). exists (a +:+ pre), post.
  now rewrite app_assoc_str.
Qed.

Lemma occurs_in_app_r (s t b : string) : occurs_in s t -> occurs_in s (t +:+ b).
Proof.
  intros (pre & post & ->). exists pre, (post +:+ b).
  now rewrite !app_assoc_str.
Qed.

Lemma occurs_in_concat (sep x : string) (xs : list string) :
  x ∈ xs -> occurs_in x (String.concat sep xs).
Proof.
  induction xs as [|y [|z xs] IH]; intros Hin.
  - inversion Hin.
  - apply list_elem_of_singleton in Hin as ->. apply occurs_in_refl.
  - change (String.concat sep (y :: z :: xs))
      with (y +:+ sep +:+ String.concat sep (z :: xs)).
    apply elem_of_cons in Hin as [-> | Hin].
    + apply occurs_in_app_r, occurs_in_refl.
    + apply occurs_in_app_l, occurs_in_app_l, IH, Hin.
Qed.

(** [str(xs)] shows the [repr] of every element. *)
Lemma py_str_list_lists (x : string) (xs : list string) :
  x ∈ xs -> occurs_in (py_repr_str x) (py_str_list xs).
Proof.
  intros Hin. unfold py_str_list.
  apply occurs_in_app_l, occurs_in_app_r, occurs_in_concat.
  apply list_elem_of_fmap. eauto.
Qed.

Lemma py_index_elem (x : string) (xs : list string) :
  x ∈ xs -> exists i, py_index x xs = Return i /\ xs !! i = Some x.
Proof.
  induction xs as [|y xs IH]; intros Hin; [inversion Hin|].
  simpl. destruct (decide (y = x)) as [-> | Hne].
  - exists 0. split; reflexivity.
  - apply elem_of_cons in Hin as [-> | Hin]; [congruence|].
    destruct (IH Hin) as (i & -> & Hi). exists (S i). split; [reflexivity | exact Hi].
Qed.

End PyFacts.

(** ** [pipeline.py]: lookups and the subgraph *)

Module PipelineFacts.
Import Pipeline PyFacts.

Example get_step_message :
  _get_step [ {| name := "ingest"; step_class := TRAINING; get_artifacts := [] |};
              {| name := "split"; step_class := TRAINING; get_artifacts := [] |} ] "train"
  = Raise (MlflowException
      "Step train not found in pipeline. Available steps are ['ingest', 'split']" None).
Proof. reflexivity. Qed.

(** The guard of line 168 never fires: a bound method is no enum member. *)
Lemma unknown_guard_is_dead (target_step : BaseStep) :
  py_eq (BoundMethod target_step "step_class") (EnumMember UNKNOWN) = false.
Proof. reflexivity. Qed.

Lemma subgraph_loop_filter (target_step : BaseStep) (steps subgraph : list BaseStep) :
  subgraph_loop target_step steps subgraph
  = subgraph ++ filter (fun step => step_class target_step = step_class step) steps.
Proof.
  revert subgraph. induction steps as [|step rest IH]; intros subgraph; simpl.
  - now rewrite app_nil_r.
  - rewrite IH, filter_cons. case_bool_decide; destruct (decide _); try contradiction.
    + now rewrite <- app_assoc.
    + reflexivity.
Qed.

(** Whatever the target's class, the resolver returns the steps of the
    target's class, in the order of the step list. *)
Lemma subgraph_is_filter (steps : list BaseStep) (target_step : BaseStep) :
  _get_subgraph_for_target_step steps target_step
  = filter (fun step => step_class target_step = step_class step) steps.
Proof.
  unfold _get_subgraph_for_target_step.
  rewrite unknown_guard_is_dead. apply subgraph_loop_filter.
Qed.

(** C1 (code defect).  For a target whose classification is unknown the
    resolver does not return the empty list: on the one-step list holding
    such a target it returns the target itself. *)
Theorem subgraph_of_unknown_target_is_not_empty :
  step_class unknown_class_step = UNKNOWN /\
  _get_subgraph_for_target_step [unknown_class_step] unknown_class_step
  = [unknown_class_step].
Proof. split; reflexivity. Qed.

Lemma find_artifact_none (artifacts : list Artifact) (a : string) :
  (forall artifact, artifact ∈ artifacts -> artifact_name artifact <> a) ->
  find_artifact artifacts a = None.
Proof.
  induction artifacts as [|artifact rest IH]; intros H; simpl; [reflexivity|].
  destruct (decide _) as [E|_].
  - exfalso. apply (H artifact); [left | exact E].
  - apply IH. intros x Hx. apply H. now right.
Qed.

Lemma find_artifact_in_steps_none (steps : list BaseStep) (a : string) :
  (forall step artifact,
      step ∈ steps -> artifact ∈ get_artifacts step -> artifact_name artifact <> a) ->
  find_artifact_in_steps steps a = None.
Proof.
  induction steps as [|step rest IH]; intros H; simpl; [reflexivity|].
  rewrite find_artifact_none.
  - apply IH. intros s x Hs. apply H. now right.
  - intros x. apply H. left.
Qed.

(** C8 (as amended).  Looking up a name that no step of the list bears
    raises at once, and the message shows the name and the [repr] of every
    step name of the list.  Asking for an artifact that no step offers raises
    at once with [INVALID_PARAMETER_VALUE], and the message shows the
    requested name only. *)
Theorem lookup_of_unknown_name_raises (steps : list BaseStep) (step_name a : string) :
  (step_name ∉ map name steps ->
   exists msg,
     _get_step steps step_name = Raise (MlflowException msg None) /\
     py_contains step_name msg = true /\
     forall step, step ∈ steps -> py_contains (py_repr_str (name step)) msg = true) /\
  ((forall step artifact,
       step ∈ steps -> artifact ∈ get_artifacts step -> artifact_name artifact <> a) ->
   _get_artifact steps a
   = Raise (MlflowException ("The artifact with name '" +:+ a +:+ "' is not supported.")
              (Some INVALID_PARAMETER_VALUE))).
Proof.
  split.
  - intros Hnot. eexists. split; [|split].
    + unfold _get_step, py_in. rewrite bool_decide_eq_false_2 by exact Hnot. reflexivity.
    + apply occurs_in_contains, occurs_in_app_l, occurs_in_app_r, occurs_in_refl.
    + intros step Hin. apply occurs_in_contains.
      do 3 apply occurs_in_app_l. apply py_str_list_lists.
      apply list_elem_of_fmap. eauto.
  - intros H. unfold _get_artifact. now rewrite find_artifact_in_steps_none.
Qed.

Lemma lookup_of_unknown_name_raises_witness :
  (exists msg,
     _get_step [split_step] "train" = Raise (MlflowException msg None) /\
     py_contains "train" msg = true /\
     forall step, step ∈ [split_step] -> py_contains (py_repr_str (name step)) msg = true) /\
  _get_artifact [split_step] "model"
  = Raise (MlflowException "The artifact with name 'model' is not supported."
             (Some INVALID_PARAMETER_VALUE)).
Proof.
  destruct (lookup_of_unknown_name_raises [split_step] "train" "model") as [H1 H2].
  split.
  - apply H1. vm_compute. intros H. apply list_elem_of_singleton in H. discriminate.
  - apply H2. intros step artifact Hs Ha.
    apply list_elem_of_singleton in Hs as ->.
    cbn [get_artifacts split_step] in Ha.
    repeat (apply elem_of_cons in Ha as [-> | Ha]; [discriminate|]).
    inversion Ha.
Defined.

(** C8 (counterexample).  The error for an unsupported artifact name lists
    none of the artifacts that are available. *)
Lemma artifact_error_lists_no_option :
  exists msg code,
    _get_artifact [split_step] "model" = Raise (MlflowException msg code) /\
    py_contains "training_data" msg = false /\
    py_contains "validation_data" msg = false /\
    py_contains "test_data" msg = false.
Proof. do 2 eexists. repeat split; reflexivity. Qed.

End PipelineFacts.

(** ** [pipeline.py]: the entry points *)

Module EntryPointFacts.
Import Pipeline PyFacts.

Section WithCollaborators.

Context {World Opaque : Type} (c : Collaborators World Opaque).

Lemma set_steps_set_steps (a b : list BaseStep) (self : PipelineObj Opaque) :
  set_steps a (set_steps b self) = set_steps a self.
Proof. reflexivity. Qed.

(** Resolving the steps reads the root, the profile and the world, and
    nothing of the steps that [self] holds. *)
Lemma resolve_ignores_cached_steps (cached : list BaseStep) (self : PipelineObj Opaque)
  (w : World) :
  fst (_resolve_pipeline_steps c (set_steps cached self, w))
  = fst (_resolve_pipeline_steps c (self, w)).
Proof.
  unfold _resolve_pipeline_steps, bindM, self_, reads, lift. cbn.
  destruct (get_pipeline_config c _ _ w); reflexivity.
Qed.

Lemma resolve_keeps_state (st : PipelineObj Opaque * World) :
  snd (_resolve_pipeline_steps c st) = st.
Proof.
  unfold _resolve_pipeline_steps, bindM, self_, reads, lift. cbn.
  destruct (get_pipeline_config c _ _ (snd st)); reflexivity.
Qed.

(** An entry point that starts by reloading the steps behaves the same
    whatever steps were cached, as soon as the reload succeeds; and when the
    reload raises, the entry point raises the same exception at once. *)
Lemma reload_first {A : Type} (k : M A) (cached : list BaseStep)
  (self : PipelineObj Opaque) (w : World) :
  let entry := bindM (_resolve_pipeline_steps c)
                 (fun steps => bindM (assign_steps steps) (fun _ => k)) in
  match fst (_resolve_pipeline_steps c (self, w)) with
  | Return steps =>
      entry (set_steps cached self, w) = k (set_steps steps self, w) /\
      entry (self, w) = k (set_steps steps self, w)
  | Raise e =>
      entry (set_steps cached self, w) = (Raise e, (set_steps cached self, w)) /\
      entry (self, w) = (Raise e, (self, w))
  end.
Proof.
  intros entry. subst entry. cbv beta delta [bindM].
  pose proof (resolve_ignores_cached_steps cached self w) as Hc.
  pose proof (resolve_keeps_state (set_steps cached self, w)) as Hs1.
  pose proof (resolve_keeps_state (self, w)) as Hs2.
  destruct (_resolve_pipeline_steps c (set_steps cached self, w)) as [r1 st1].
  destruct (_resolve_pipeline_steps c (self, w)) as [r2 st2].
  cbn in Hc, Hs1, Hs2. subst r1 st1 st2.
  destruct r2; split; reflexivity.
Qed.

Lemma clean_keeps_self (step : option string) (self : PipelineObj Opaque) (w : World) :
  fst (snd (clean c step (self, w))) = self.
Proof.
  unfold clean, bindM, self_, get_step_of_self, ret, lift, calls. cbn.
  destruct (negb (py_truthy step)); cbn.
  - destruct (clean_execution_state c _ _ w); reflexivity.
  - destruct (_get_step _ _); cbn; [|reflexivity].
    destruct (clean_execution_state c _ _ w); reflexivity.
Qed.

(** C7.  Once [run] has read the execution state of the last executed
    step: if the status is [SUCCEEDED], [run] returns; otherwise it raises
    one [MlflowException] with [BAD_REQUEST], whose message names the
    pipeline and the step and ends with the recorded stack trace. *)
Theorem run_raises_iff_last_step_not_succeeded
  (step : option string) (st0 st1 : PipelineObj Opaque * World)
  (last_executed_step : BaseStep) (state : StepExecutionState) :
  run_until_state c step st0 = (Return (last_executed_step, state), st1) ->
  (status state = SUCCEEDED -> run c step st0 = (Return tt, st1)) /\
  (status state <> SUCCEEDED ->
   exists msg,
     run c step st0 = (Raise (MlflowException msg (Some BAD_REQUEST)), st1) /\
     py_contains ("pipeline '" +:+ _name (fst st1) +:+ "'") msg = true /\
     py_contains ("step '" +:+ name last_executed_step +:+ "'") msg = true /\
     py_contains (py_format_optional (stack_trace state)) msg = true).
Proof.
  intros Hstate. unfold run, bindM. rewrite Hstate. unfold run_verify.
  split; intros Hstatus.
  - rewrite bool_decide_eq_true_2 by exact Hstatus. reflexivity.
  - rewrite bool_decide_eq_false_2 by exact Hstatus. cbn.
    eexists. split; [reflexivity|]. unfold run_failure_message.
    set (tail := " An error was encountered while running step '"
                 +:+ name last_executed_step +:+ "': "
                 +:+ py_format_optional (stack_trace state)).
    repeat split; apply occurs_in_contains.
    + destruct step as [step0|].
      * exists ("Failed to run step '" +:+ step0 +:+ "' of "), ("." +:+ tail).
        rewrite !app_assoc_str. reflexivity.
      * exists "Failed to run ", ("." +:+ tail).
        rewrite !app_assoc_str. reflexivity.
    + apply occurs_in_app_l.
      exists " An error was encountered while running ",
        (": " +:+ py_format_optional (stack_trace state)).
      subst tail. rewrite !app_assoc_str. reflexivity.
    + subst tail. do 4 apply occurs_in_app_l. apply occurs_in_refl.
Qed.

(** C9 (as amended).  [run] and [inspect] rebuild the step descriptors from
    the current configuration before anything else: their outcome and their
    effect on the world do not depend on the descriptors the object held,
    and [inspect] leaves the rebuilt descriptors in the object.  [clean]
    rebuilds nothing: it cleans the descriptors the object holds (all of
    them, or the one looked up among them) and leaves them in place. *)
Theorem run_and_inspect_reload_clean_does_not
  (step : option string) (cached : list BaseStep) (self : PipelineObj Opaque) (w : World) :
  (fst (run c step (set_steps cached self, w)) = fst (run c step (self, w)) /\
   snd (snd (run c step (set_steps cached self, w))) = snd (snd (run c step (self, w)))) /\
  (fst (inspect c step (set_steps cached self, w)) = fst (inspect c step (self, w)) /\
   snd (snd (inspect c step (set_steps cached self, w)))
   = snd (snd (inspect c step (self, w)))) /\
  match fst (_resolve_pipeline_steps c (self, w)) with
  | Return steps => _steps (fst (snd (inspect c step (self, w)))) = steps
  | Raise e => inspect c step (self, w) = (Raise e, (self, w))
  end /\
  clean c step (self, w)
  = match (if negb (py_truthy step) then Return (_steps self)
           else bind (_get_step (_steps self) (default EmptyString step))
                  (fun found => Return [found])) with
    | Return to_clean =>
        let '(r, w') := clean_execution_state c (_pipeline_root_path self) to_clean w in
        (r, (self, w'))
    | Raise e => (Raise e, (self, w))
    end.
Proof.
  split; [|split; [|split]].
  - unfold run. cbv beta delta [bindM]. unfold run_until_state.
    match goal with
    | |- context [bindM (_resolve_pipeline_steps c)
                    (fun steps => bindM (assign_steps steps) (fun _ => ?k))] =>
        pose proof (reload_first k cached self w) as H
    end.
    cbv zeta in H. destruct (fst (_resolve_pipeline_steps c (self, w)));
      destruct H as [-> ->]; split; reflexivity.
  - unfold inspect.
    match goal with
    | |- context [bindM (_resolve_pipeline_steps c)
                    (fun steps => bindM (assign_steps steps) (fun _ => ?k))] =>
        pose proof (reload_first k cached self w) as H
    end.
    cbv zeta in H. destruct (fst (_resolve_pipeline_steps c (self, w)));
      destruct H as [-> ->]; split; reflexivity.
  - unfold inspect.
    match goal with
    | |- context [bindM (_resolve_pipeline_steps c)
                    (fun steps => bindM (assign_steps steps) (fun _ => ?k))] =>
        pose proof (reload_first k self.(_steps) self w) as H
    end.
    cbv zeta in H. destruct (fst (_resolve_pipeline_steps c (self, w))) as [steps|e];
      destruct H as [_ ->]; [|reflexivity].
    unfold bindM, self_, get_step_of_self, lift, calls, assign_steps. simpl.
    destruct (negb (py_truthy step)); simpl.
    + destruct (display_pipeline_dag c _ w); reflexivity.
    + destruct (get_step_output_path c _ _ _ w) as [[dir|e] w1]; cbn; [|reflexivity].
      destruct (_get_step steps _); cbn; [|reflexivity].
      destruct (step_inspect c _ _ w1); reflexivity.
  - unfold clean, bindM, self_, get_step_of_self, ret, lift, calls. cbn.
    destruct (negb (py_truthy step)); cbn; [reflexivity|].
    destruct (_get_step _ _); reflexivity.
Qed.

End WithCollaborators.

Example init_builds_demo_pipeline :
  fst (__init__ demo "root" "local" (demo_world "ingest" SUCCEEDED None))
  = Return demo_pipeline.
Proof. vm_compute. reflexivity. Qed.

Lemma run_raises_iff_last_step_not_succeeded_witness :
  exists msg,
    run demo (Some "ingest")
      (demo_pipeline, demo_world "ingest" FAILED (Some "Traceback (most recent call last)"))
    = (Raise (MlflowException msg (Some BAD_REQUEST)),
       (demo_pipeline, demo_world "ingest" FAILED (Some "Traceback (most recent call last)")))
    /\ py_contains "pipeline 'demo'" msg = true
    /\ py_contains "step 'ingest'" msg = true
    /\ py_contains "Traceback (most recent call last)" msg = true.
Proof.
  refine (proj2 (run_raises_iff_last_step_not_succeeded demo (Some "ingest")
            (demo_pipeline, demo_world "ingest" FAILED (Some "Traceback (most recent call last)"))
            (demo_pipeline, demo_world "ingest" FAILED (Some "Traceback (most recent call last)"))
            {| name := "ingest"; step_class := TRAINING; get_artifacts := [] |}
            {| status := FAILED; last_updated_timestamp := 0;
               stack_trace := Some "Traceback (most recent call last)" |} _) _).
  - vm_compute. reflexivity.
  - discriminate.
Defined.

(** C9 (counterexample).  The object was built while the configuration
    declared the step [ingest]; the configuration now declares [split].
    [clean] cleans [ingest], the descriptor cached in the object, and not the
    descriptor that the current configuration resolves to. *)
Lemma clean_reuses_cached_descriptors :
  fst (_resolve_pipeline_steps demo (demo_pipeline, demo_world "split" SUCCEEDED None))
  = Return [ {| name := "split"; step_class := TRAINING; get_artifacts := [] |} ] /\
  cleaned (snd (snd (clean demo None (demo_pipeline, demo_world "split" SUCCEEDED None))))
  = [ [ {| name := "ingest"; step_class := TRAINING; get_artifacts := [] |} ] ].
Proof. split; vm_compute; reflexivity. Qed.

End EntryPointFacts.

(** ** [split.py]: the split is a partition *)

Module SplitFacts.
Import Split.

Example default_ratios_ends :
  bucket_ends (float_0_75, float_0_125, float_0_125)
  = Return (float_0_75, S754_finite false 7881299347898368 (-53)).
Proof. vm_compute. reflexivity. Qed.

(** *** Comparing floats *)

Lemma SFcompare_key (x y : pyfloat) :
  SFcompare x y
  = match float_key x, float_key y with
    | Some kx, Some ky => Some (lex_cmp kx ky)
    | _, _ => None
    end.
Proof.
  destruct x as [sx|sx| |sx mx ex], y as [sy|sy| |sy my ey];
    try destruct sx; try destruct sy; try reflexivity; cbn.
  rewrite Z.compare_opp, (Z.compare_antisym ex ey).
  destruct (ex ?= ey)%Z; reflexivity.
Qed.

Lemma lex_cmp_spec (k1 k2 : Z * Z * Z) :
  match lex_cmp k1 k2 with
  | Lt => lex_lt k1 k2
  | Eq => k1 = k2
  | Gt => lex_lt k2 k1
  end.
Proof.
  destruct k1 as [[a1 a2] a3], k2 as [[b1 b2] b3]. unfold lex_cmp, lex_lt.
  destruct (Z.compare_spec a1 b1); [|lia|lia].
  destruct (Z.compare_spec a2 b2); [|lia|lia].
  destruct (Z.compare_spec a3 b3); [congruence|lia|lia].
Qed.

Lemma lex_lt_irrefl (k : Z * Z * Z) : ~ lex_lt k k.
Proof. destruct k as [[a1 a2] a3]. unfold lex_lt. lia. Qed.

Lemma lex_lt_trans (k1 k2 k3 : Z * Z * Z) : lex_lt k1 k2 -> lex_lt k2 k3 -> lex_lt k1 k3.
Proof.
  destruct k1 as [[a1 a2] a3], k2 as [[b1 b2] b3], k3 as [[c1 c2] c3].
  unfold lex_lt. lia.
Qed.

Lemma lex_cmp_Lt (k1 k2 : Z * Z * Z) : lex_cmp k1 k2 = Lt <-> lex_lt k1 k2.
Proof.
  pose proof (lex_cmp_spec k1 k2) as H. split.
  - intros E. now rewrite E in H.
  - intros L. destruct (lex_cmp k1 k2); [|reflexivity|].
    + subst. now apply lex_lt_irrefl in L.
    + exfalso. apply (lex_lt_irrefl k1). eapply lex_lt_trans; eassumption.
Qed.

Lemma lex_cmp_antisym (k1 k2 : Z * Z * Z) : lex_cmp k2 k1 = CompOpp (lex_cmp k1 k2).
Proof.
  pose proof (lex_cmp_spec k1 k2) as H. pose proof (lex_cmp_spec k2 k1) as H'.
  destruct (lex_cmp k1 k2), (lex_cmp k2 k1); try reflexivity; exfalso; subst;
    try (now apply lex_lt_irrefl in H); try (now apply lex_lt_irrefl in H');
    apply (lex_lt_irrefl k1); eapply lex_lt_trans; eassumption.
Qed.

(** [x < a] and [a <= b] give [x < b]. *)
Lemma lex_cmp_lt_le (kx ka kb : Z * Z * Z) :
  lex_cmp kx ka = Lt -> lex_cmp ka kb <> Gt -> lex_cmp kx kb = Lt.
Proof.
  intros H1 H2. apply lex_cmp_Lt. apply lex_cmp_Lt in H1.
  pose proof (lex_cmp_spec ka kb) as H. destruct (lex_cmp ka kb); [| |congruence].
  - now subst.
  - eapply lex_lt_trans; eassumption.
Qed.

(** The three masks of [_get_split_df] at one bucket: when the boundaries
    are ordered and the bucket is a number, exactly one of them is set. *)
Lemma masks_exactly_one (x a b : pyfloat) :
  in_unit_interval x = true ->
  float_le a b = true ->
  exactly_one (float_lt x a) (float_le a x && float_lt x b) (float_ge x b).
Proof.
  unfold in_unit_interval, float_le, float_lt, float_ge, SFleb, SFltb.
  rewrite !SFcompare_key. intros Hx Hab.
  destruct (float_key x) as [kx|]; [|now destruct (float_key float_zero)].
  clear Hx. destruct (float_key a) as [ka|]; [|discriminate].
  destruct (float_key b) as [kb|]; [|discriminate].
  rewrite (lex_cmp_antisym kx ka), (lex_cmp_antisym kx kb).
  pose proof (lex_cmp_lt_le kx ka kb) as Htrans.
  unfold exactly_one.
  destruct (lex_cmp kx ka) eqn:Exa; cbn.
  - destruct (lex_cmp kx kb); cbn; tauto.
  - rewrite Htrans; [cbn; tauto | reflexivity | ].
    destruct (lex_cmp ka kb); congruence.
  - destruct (lex_cmp kx kb); cbn; tauto.
Qed.

(** *** Selecting rows *)

Section Rows.

Context {Row : Type}.

Lemma select_rows_three (f1 f2 f3 : pyfloat -> bool) (input_df : list Row)
  (hash_buckets : list pyfloat) :
  length hash_buckets = length input_df ->
  Forall (fun x => exactly_one (f1 x) (f2 x) (f3 x)) hash_buckets ->
  exists d1 d2 d3,
    select_rows input_df (map f1 hash_buckets) = Return d1 /\
    select_rows input_df (map f2 hash_buckets) = Return d2 /\
    select_rows input_df (map f3 hash_buckets) = Return d3 /\
    Permutation input_df (d1 ++ d2 ++ d3) /\
    sublist d1 input_df /\ sublist d2 input_df /\ sublist d3 input_df.
Proof.
  revert hash_buckets.
  induction input_df as [|row rows IH]; intros [|x xs] Hlen Hone; try discriminate.
  - exists [], [], []. repeat split; constructor.
  - inversion Hone as [|? ? Hx Hxs]; subst.
    destruct (IH xs) as (d1 & d2 & d3 & E1 & E2 & E3 & HP & S1 & S2 & S3);
      [now inversion Hlen | exact Hxs |].
    cbn [map select_rows]. rewrite E1, E2, E3. cbn [bind].
    destruct Hx as [(-> & -> & ->) | [(-> & -> & ->) | (-> & -> & ->)]];
      do 3 eexists; (split; [reflexivity|]); (split; [reflexivity|]);
      (split; [reflexivity|]).
    + split; [|repeat split; now constructor].
      cbn. now constructor.
    + split; [|repeat split; now constructor].
      cbn. rewrite <- Permutation_middle. now constructor.
    + split; [|repeat split; now constructor].
      cbn. rewrite app_assoc, <- Permutation_middle, <- app_assoc. now constructor.
Qed.

(** C10 (as amended).  When the two boundaries are computed (the sum of the
    ratios is not zero) and come out ordered, [train_bucket_end <=
    validation_bucket_end], and every hash bucket is a number of [[0, 1)],
    [_get_split_df] returns three dataframes that partition the rows of the
    input: together they are a rearrangement of the input, and each keeps the
    input's order. *)
Theorem split_is_partition (input_df : list Row) (hash_buckets : list pyfloat)
  (split_ratios : pyfloat * pyfloat * pyfloat)
  (train_bucket_end validation_bucket_end : pyfloat) :
  length hash_buckets = length input_df ->
  Forall (fun x => in_unit_interval x = true) hash_buckets ->
  bucket_ends split_ratios = Return (train_bucket_end, validation_bucket_end) ->
  float_le train_bucket_end validation_bucket_end = true ->
  exists train_df validation_df test_df log,
    _get_split_df input_df hash_buckets split_ratios
    = Return (train_df, validation_df, test_df, log) /\
    Permutation input_df (train_df ++ validation_df ++ test_df) /\
    sublist train_df input_df /\
    sublist validation_df input_df /\
    sublist test_df input_df.
Proof.
  intros Hlen Hbuckets Hends Hordered.
  destruct (select_rows_three
              (fun x => float_lt x train_bucket_end)
              (fun x => float_le train_bucket_end x && float_lt x validation_bucket_end)
              (fun x => float_ge x validation_bucket_end)
              input_df hash_buckets Hlen)
    as (d1 & d2 & d3 & E1 & E2 & E3 & HP & S1 & S2 & S3).
  - eapply Forall_impl; [exact Hbuckets|]. intros x Hx.
    now apply masks_exactly_one.
  - exists d1, d2, d3. eexists. split; [|auto].
    unfold _get_split_df. rewrite Hends. cbn [bind]. rewrite E1, E2, E3. reflexivity.
Qed.

End Rows.

Lemma split_is_partition_witness :
  exists train_df validation_df test_df log,
    _get_split_df [1; 2; 3; 4] [float_half; float_0_75; float_0_125; float_half]
      (float_0_75, float_0_125, float_0_125)
    = Return (train_df, validation_df, test_df, log) /\
    Permutation [1; 2; 3; 4] (train_df ++ validation_df ++ test_df) /\
    sublist train_df [1; 2; 3; 4] /\
    sublist validation_df [1; 2; 3; 4] /\
    sublist test_df [1; 2; 3; 4].
Proof.
  apply (split_is_partition [1; 2; 3; 4] [float_half; float_0_75; float_0_125; float_half]
           (float_0_75, float_0_125, float_0_125)
           float_0_75 (S754_finite false 7881299347898368 (-53))).
  - reflexivity.
  - repeat constructor.
  - vm_compute. reflexivity.
  - reflexivity.
Defined.

(** C10 (counterexample).  Three positive, finite ratios, each 2^1023:
    their sum overflows to infinity, the first boundary is 0 and the second
    is NaN, and the one row of the input, whose bucket is 0.5, lands in none
    of the three dataframes. *)
Lemma split_drops_rows_on_overflow :
  float_lt float_zero float_2p1023 = true /\
  valid_binary 53 1024 float_2p1023 = true /\
  in_unit_interval float_half = true /\
  bucket_ends (float_2p1023, float_2p1023, float_2p1023)
  = Return (float_zero, S754_nan) /\
  _get_split_df [tt] [float_half] (float_2p1023, float_2p1023, float_2p1023)
  = Return ([], [], [],
            ["The following input dataset splits are empty: train split,validation split,test split."]) /\
  ~ Permutation [tt] ([] ++ [] ++ []).
Proof.
  repeat split; try (vm_compute; reflexivity).
  intros H. apply Permutation_length in H. discriminate.
Qed.

End SplitFacts.

(** ** The execution plan *)

Module ExecutionPlanFacts.
Import ExecutionPlan PyFacts.

(** The three cases of [test_execution_plan]. *)
Example plan_all_cached :
  steps_cached "register" ["make: `register' is up to date."] train_subgraph_of_test
  = train_subgraph_of_test.
Proof. vm_compute. reflexivity. Qed.

Example plan_all_executed :
  steps_cached "transform"
    [start_line "ingest"; start_line "split"; start_line "transform"]
    train_subgraph_of_test
  = [].
Proof. vm_compute. reflexivity. Qed.

Example plan_transform_executed :
  steps_cached "transform" [start_line "transform"] train_subgraph_of_test
  = ["ingest"; "split"].
Proof. vm_compute. reflexivity. Qed.

Lemma length_app_str (a b : string) :
  String.length (a +:+ b) = String.length a + String.length b.
Proof.
  induction a as [|ch a IH]; [reflexivity|].
  rewrite app_cons_str. cbn. now rewrite IH.
Qed.

Lemma app_inj_r_str (a b d : string) : a +:+ d = b +:+ d -> a = b.
Proof.
  revert b. induction a as [|x a IH]; intros [|y b] H.
  - reflexivity.
  - apply (f_equal String.length) in H.
    rewrite app_nil_str, app_cons_str in H. cbn in H. rewrite length_app_str in H. lia.
  - apply (f_equal String.length) in H.
    rewrite app_nil_str, app_cons_str in H. cbn in H. rewrite length_app_str in H. lia.
  - rewrite !app_cons_str in H. injection H as -> H. f_equal. now apply IH.
Qed.

Lemma start_line_inj (n m : string) : start_line n = start_line m -> n = m.
Proof.
  unfold start_line. intros H.
  apply String.app_inj in H. now apply app_inj_r_str in H.
Qed.

Lemma start_line_not_up_to_date (n target : string) : start_line n <> up_to_date_line target.
Proof. unfold start_line, up_to_date_line. rewrite !app_cons_str. discriminate. Qed.

(** A line that starts a step of the sequence is read as that step, at its
    first position. *)
Lemma signal_of_start_line (target n : string) (train_subgraph : list string) (i : nat) :
  train_subgraph !! i = Some n ->
  (forall j, j < i -> train_subgraph !! j <> Some n) ->
  signal_of_line target train_subgraph (start_line n) = Some (StepStarted i).
Proof.
  intros Hi Hfirst. unfold signal_of_line.
  destruct (list_find _ train_subgraph) as [[i' m]|] eqn:E.
  - apply list_find_Some in E as (Hi' & Hm & Hmin).
    apply start_line_inj in Hm as <-.
    destruct (Nat.lt_trichotomy i i') as [Hlt | [-> | Hgt]]; [|reflexivity|].
    + exfalso. now apply (Hmin i n).
    + exfalso. now apply (Hfirst i').
  - apply list_find_None in E. rewrite Forall_forall in E.
    exfalso. apply (E n); [|reflexivity]. now apply list_elem_of_lookup_2 in Hi.
Qed.

Lemma signal_of_up_to_date_line (target : string) (train_subgraph : list string) :
  signal_of_line target train_subgraph (up_to_date_line target) = Some NothingToDo.
Proof.
  unfold signal_of_line.
  destruct (list_find _ train_subgraph) as [[i m]|] eqn:E.
  - apply list_find_Some in E as (_ & Hm & _).
    symmetry in Hm. now apply start_line_not_up_to_date in Hm.
  - now rewrite decide_True.
Qed.

(** A line that starts no step of the sequence is the up-to-date line or
    tells nothing. *)
Lemma signal_of_other_line (target line : string) (train_subgraph : list string) :
  (forall n, n ∈ train_subgraph -> line <> start_line n) ->
  signal_of_line target train_subgraph line = Some NothingToDo \/
  (signal_of_line target train_subgraph line = None /\ line <> up_to_date_line target).
Proof.
  intros H. unfold signal_of_line.
  destruct (list_find _ train_subgraph) as [[i m]|] eqn:E.
  - apply list_find_Some in E as (Hi & Hm & _).
    exfalso. apply (H m); [|exact Hm]. now apply list_elem_of_lookup_2 in Hi.
  - destruct (decide _); [left | right]; auto.
Qed.

Lemma first_signal_nothing_to_do (target : string) (train_subgraph lines : list string)
  (k : nat) :
  lines !! k = Some (up_to_date_line target) ->
  (forall k' n, k' < k -> n ∈ train_subgraph -> lines !! k' <> Some (start_line n)) ->
  first_signal target train_subgraph lines = Some NothingToDo.
Proof.
  revert lines. induction k as [|k IH]; intros [|line rest] Hk Hbefore; try discriminate.
  - injection Hk as ->. cbn. now rewrite signal_of_up_to_date_line.
  - cbn [first_signal].
    destruct (signal_of_other_line target line train_subgraph) as [-> | [-> _]].
    + intros n Hn ->. apply (Hbefore 0 n); [lia | exact Hn | reflexivity].
    + reflexivity.
    + apply IH; [exact Hk|]. intros k' n Hlt Hn. apply (Hbefore (S k') n); [lia | exact Hn].
Qed.

Lemma first_signal_step_started (target n : string) (train_subgraph lines : list string)
  (k i : nat) :
  lines !! k = Some (start_line n) ->
  (forall k', k' < k ->
     lines !! k' <> Some (up_to_date_line target) /\
     forall m, m ∈ train_subgraph -> lines !! k' <> Some (start_line m)) ->
  train_subgraph !! i = Some n ->
  (forall j, j < i -> train_subgraph !! j <> Some n) ->
  first_signal target train_subgraph lines = Some (StepStarted i).
Proof.
  intros Hk Hbefore Hi Hfirst. revert lines Hk Hbefore.
  induction k as [|k IH]; intros [|line rest] Hk Hbefore; try discriminate.
  - injection Hk as ->. cbn. now rewrite (signal_of_start_line target n train_subgraph i).
  - cbn [first_signal].
    destruct (Hbefore 0) as [Hup Hstart]; [lia|].
    destruct (signal_of_other_line target line train_subgraph) as [E | [-> _]].
    + intros m Hm ->. now apply (Hstart m).
    + exfalso. unfold signal_of_line in E.
      destruct (list_find _ train_subgraph) as [[? ?]|]; [discriminate|].
      destruct (decide (line = up_to_date_line target)) as [->|]; [|discriminate].
      now apply Hup.
    + apply IH; [exact Hk|]. intros k' Hlt. apply (Hbefore (S k')). lia.
Qed.

Lemma through_target_take (target : string) (train_subgraph : list string) (i : nat) :
  train_subgraph !! i = Some target ->
  (forall j, j < i -> train_subgraph !! j <> Some target) ->
  through_target target train_subgraph = take (S i) train_subgraph.
Proof.
  intros Hi Hfirst. unfold through_target.
  destruct (list_find _ train_subgraph) as [[i' m]|] eqn:E.
  - apply list_find_Some in E as (Hi' & -> & Hmin).
    destruct (Nat.lt_trichotomy i i') as [Hlt | [-> | Hgt]]; [|reflexivity|].
    + exfalso. now apply (Hmin i target).
    + exfalso. now apply (Hfirst i').
  - apply list_find_None in E. rewrite Forall_forall in E.
    exfalso. apply (E target); [|reflexivity]. now apply list_elem_of_lookup_2 in Hi.
Qed.

(** C2 (as amended).  When the up-to-date line of the target appears and no
    line before it starts a step of the sequence, the cached steps are the
    steps up to and including the target (the whole sequence when the target
    is its last step).  When a line starts a step of the sequence and no
    line before it is the up-to-date line or starts a step, the cached steps
    are the steps strictly before that step (none when it is the first). *)
Theorem steps_cached_by_first_signal (target : string) (lines train_subgraph : list string) :
  (forall k i,
     lines !! k = Some (up_to_date_line target) ->
     (forall k' n, k' < k -> n ∈ train_subgraph -> lines !! k' <> Some (start_line n)) ->
     train_subgraph !! i = Some target ->
     (forall j, j < i -> train_subgraph !! j <> Some target) ->
     steps_cached target lines train_subgraph = take (S i) train_subgraph /\
     (S i = length train_subgraph ->
      steps_cached target lines train_subgraph = train_subgraph)) /\
  (forall k n i,
     lines !! k = Some (start_line n) ->
     (forall k', k' < k ->
        lines !! k' <> Some (up_to_date_line target) /\
        forall m, m ∈ train_subgraph -> lines !! k' <> Some (start_line m)) ->
     train_subgraph !! i = Some n ->
     (forall j, j < i -> train_subgraph !! j <> Some n) ->
     steps_cached target lines train_subgraph = take i train_subgraph /\
     (i = 0 -> steps_cached target lines train_subgraph = [])).
Proof.
  split.
  - intros k i Hk Hbefore Hi Hfirst.
    assert (steps_cached target lines train_subgraph = take (S i) train_subgraph) as E.
    { unfold steps_cached.
      rewrite (first_signal_nothing_to_do target train_subgraph lines k Hk Hbefore).
      now apply through_target_take. }
    split; [exact E|]. intros Hlast. rewrite E, Hlast. apply firstn_all.
  - intros k n i Hk Hbefore Hi Hfirst.
    assert (steps_cached target lines train_subgraph = take i train_subgraph) as E.
    { unfold steps_cached.
      now rewrite (first_signal_step_started target n train_subgraph lines k i). }
    split; [exact E|]. intros ->. now rewrite E.
Qed.

Lemma steps_cached_by_first_signal_witness :
  (steps_cached "split" [up_to_date_line "split"] ["ingest"; "split"; "transform"]
   = take 2 ["ingest"; "split"; "transform"]) /\
  (steps_cached "transform" [start_line "transform"] train_subgraph_of_test
   = take 2 train_subgraph_of_test).
Proof.
  split.
  - apply (proj1 (steps_cached_by_first_signal "split" [up_to_date_line "split"]
                    ["ingest"; "split"; "transform"]) 0 1).
    + reflexivity.
    + intros k' n Hlt. lia.
    + reflexivity.
    + intros [|j] Hlt; [discriminate | lia].
  - apply (proj2 (steps_cached_by_first_signal "transform" [start_line "transform"]
                    train_subgraph_of_test) 0 "transform" 2).
    + reflexivity.
    + intros k' Hlt. lia.
    + reflexivity.
    + intros [|[|j]] Hlt; [discriminate | discriminate | lia].
Defined.

(** C2 (counterexample).  The target [split] is not the last step of the
    sequence: on the up-to-date line the cached steps stop at [split], they
    are not the full sequence. *)
Lemma steps_cached_stops_at_target :
  steps_cached "split" ["make: `split' is up to date."] ["ingest"; "split"; "transform"]
  = ["ingest"; "split"] /\
  steps_cached "split" ["make: `split' is up to date."] ["ingest"; "split"; "transform"]
  <> ["ingest"; "split"; "transform"].
Proof. split; [vm_compute; reflexivity | vm_compute; discriminate]. Qed.

End ExecutionPlanFacts.

(** ** The execution directory *)

Module ExecutionDirectoryFacts.
Import ExecutionDirectory.

(** The two failures that [test_get_or_create_execution_directory_is_idempotent]
    simulates. *)
Example makefile_failure_leaves_directory_empty :
  fst (test_ensure (Some (7, injected_failure "Makefile creation failed")) test_fs)
  = Raise (injected_failure "Makefile creation failed") /\
  snd (test_ensure (Some (7, injected_failure "Makefile creation failed")) test_fs)
    !! ["home"; ".mlflow"; "pipelines"; "tmp"] = Some Dir /\
  entries_below ["home"; ".mlflow"; "pipelines"; "tmp"]
    (snd (test_ensure (Some (7, injected_failure "Makefile creation failed")) test_fs))
  = [].
Proof. repeat split; vm_compute; reflexivity. Qed.

Example step_directory_failure_leaves_makefile :
  entries_below ["home"; ".mlflow"; "pipelines"; "tmp"]
    (snd (test_ensure (Some (8, injected_failure "Step directory creation failed")) test_fs))
  = [ ["home"; ".mlflow"; "pipelines"; "tmp"; "Makefile"] ].
Proof. vm_compute. reflexivity. Qed.

(** *** Single operations *)

Lemma lookup_make_dirs (ps : list path) (fs : FileSystem) (q : path) :
  make_dirs ps fs !! q = if decide (q ∈ ps) then Some Dir else fs !! q.
Proof.
  induction ps as [|p ps IH].
  - cbn. rewrite decide_False; [reflexivity | apply not_elem_of_nil].
  - change (make_dirs (p :: ps) fs) with (<[p := Dir]> (make_dirs ps fs)).
    destruct (decide (p = q)) as [->|Hne].
    + rewrite lookup_insert_eq, decide_True; [reflexivity | left].
    + rewrite lookup_insert_ne by exact Hne. rewrite IH.
      destruct (decide (q ∈ ps)) as [Hin|Hnin].
      * rewrite decide_True; [reflexivity | now right].
      * rewrite decide_False; [reflexivity|].
        intros [->|?]%elem_of_cons; [now apply Hne | now apply Hnin].
Qed.

Lemma make_dirs_done (ps : list path) (fs : FileSystem) :
  Forall (fun q => fs !! q = Some Dir) ps -> make_dirs ps fs = fs.
Proof.
  induction 1 as [|p ps Hp _ IH]; [reflexivity|].
  change (make_dirs (p :: ps) fs) with (<[p := Dir]> (make_dirs ps fs)).
  rewrite IH. now apply insert_id.
Qed.

Lemma no_file_among_dirs (ps : list path) (fs : FileSystem) :
  Forall (fun q => fs !! q = Some Dir) ps -> existsb (is_file_at fs) ps = false.
Proof.
  induction 1 as [|p ps Hp _ IH]; cbn; [reflexivity|].
  unfold is_file_at at 1. now rewrite Hp, IH.
Qed.

Lemma parent_neq (p : path) : p <> [] -> parent p <> p.
Proof.
  intros Hp E. apply (f_equal length) in E. unfold parent in E.
  rewrite length_take in E. destruct p; [congruence | cbn in E; lia].
Qed.

Lemma is_dir_at_true (fs : FileSystem) (p : path) :
  is_dir_at fs p = true <-> p = [] \/ fs !! p = Some Dir.
Proof.
  unfold is_dir_at. rewrite orb_true_iff, bool_decide_eq_true.
  destruct (fs !! p) as [[|c]|]; intuition congruence.
Qed.

(** An operation that is done changes nothing, and raises nothing. *)
Lemma run_op_done (op : FsOp) (fs : FileSystem) :
  done_in fs op -> run_op op fs = Return fs.
Proof.
  destruct op as [p | p content | p content]; cbn.
  - intros H. now rewrite no_file_among_dirs, make_dirs_done.
  - intros [-> | H]; [reflexivity|].
    rewrite (bool_decide_eq_true_2 _ H). now rewrite orb_true_r.
  - intros (Hp & Hfile & Hparent).
    unfold is_dir_at at 1. rewrite Hfile, (bool_decide_eq_false_2 _ Hp). cbn.
    rewrite Hparent. now rewrite insert_id.
Qed.

(** An operation that returned is done. *)
Lemma run_op_makes_done (op : FsOp) (fs fs' : FileSystem) :
  run_op op fs = Return fs' -> done_in fs' op.
Proof.
  destruct op as [p | p content | p content]; cbn.
  - destruct (existsb _ _); [discriminate|]. intros [= <-].
    apply Forall_forall. intros q Hq. rewrite lookup_make_dirs. now rewrite decide_True.
  - destruct (bool_decide (p = [])) eqn:E1; cbn.
    { intros [= <-]. left. now apply bool_decide_eq_true in E1. }
    destruct (bool_decide (is_Some (fs !! p))) eqn:E2.
    { intros [= <-]. right. now apply bool_decide_eq_true in E2. }
    destruct (is_dir_at fs (parent p)); [|discriminate].
    intros [= <-]. right. rewrite lookup_insert_eq. eauto.
  - destruct (is_dir_at fs p) eqn:E1; [discriminate|].
    destruct (is_dir_at fs (parent p)) eqn:E2; [|discriminate].
    intros [= <-].
    assert (p <> []) as Hp.
    { intros ->. unfold is_dir_at in E1. now rewrite bool_decide_eq_true_2 in E1. }
    split; [exact Hp|]. split; [apply lookup_insert_eq|].
    apply is_dir_at_true. apply is_dir_at_true in E2 as [E2|E2]; [now left | right].
    rewrite lookup_insert_ne; [exact E2 | apply not_eq_sym, parent_neq, Hp].
Qed.

(** Operations never remove or replace a directory. *)
Lemma run_op_keeps_dir (op : FsOp) (fs fs' : FileSystem) (q : path) :
  run_op op fs = Return fs' -> fs !! q = Some Dir -> fs' !! q = Some Dir.
Proof.
  destruct op as [p | p content | p content]; cbn; intros Hrun Hq.
  - destruct (existsb _ _); [discriminate|]. injection Hrun as <-.
    rewrite lookup_make_dirs. now destruct (decide _).
  - destruct (bool_decide (p = []) || bool_decide (is_Some (fs !! p))) eqn:E.
    { now injection Hrun as <-. }
    destruct (is_dir_at fs (parent p)); [|discriminate]. injection Hrun as <-.
    apply orb_false_iff in E as [_ E]. apply bool_decide_eq_false in E.
    rewrite lookup_insert_ne; [exact Hq|]. intros ->. apply E. eauto.
  - destruct (is_dir_at fs p) eqn:E; [discriminate|].
    destruct (is_dir_at fs (parent p)); [|discriminate]. injection Hrun as <-.
    rewrite lookup_insert_ne; [exact Hq|]. intros ->.
    unfold is_dir_at in E. rewrite Hq in E. now rewrite orb_true_r in E.
Qed.

(** Operations never remove an entry. *)
Lemma run_op_keeps_entry (op : FsOp) (fs fs' : FileSystem) (q : path) :
  run_op op fs = Return fs' -> is_Some (fs !! q) -> is_Some (fs' !! q).
Proof.
  destruct op as [p | p content | p content]; cbn; intros Hrun Hq.
  - destruct (existsb _ _); [discriminate|]. injection Hrun as <-.
    rewrite lookup_make_dirs. destruct (decide _); eauto.
  - destruct (bool_decide (p = []) || bool_decide (is_Some (fs !! p))).
    { now injection Hrun as <-. }
    destruct (is_dir_at fs (parent p)); [|discriminate]. injection Hrun as <-.
    apply lookup_insert_is_Some'. now right.
  - destruct (is_dir_at fs p); [discriminate|].
    destruct (is_dir_at fs (parent p)); [|discriminate]. injection Hrun as <-.
    apply lookup_insert_is_Some'. now right.
Qed.

(** Only [WriteFile] changes a file, and only the file it writes. *)
Lemma run_op_keeps_file (op : FsOp) (fs fs' : FileSystem) (q : path) (content : string) :
  run_op op fs = Return fs' ->
  fs !! q = Some (File content) ->
  q ∉ written op ->
  fs' !! q = Some (File content).
Proof.
  destruct op as [p | p c | p c]; cbn; intros Hrun Hq Hw.
  - destruct (existsb _ _) eqn:E; [discriminate|]. injection Hrun as <-.
    rewrite lookup_make_dirs. destruct (decide _) as [Hin|]; [|exact Hq].
    exfalso. apply not_true_iff_false in E. apply E.
    apply existsb_exists. exists q. split; [now apply list_elem_of_In|].
    unfold is_file_at. now rewrite Hq.
  - destruct (bool_decide (p = []) || bool_decide (is_Some (fs !! p))) eqn:E.
    { now injection Hrun as <-. }
    destruct (is_dir_at fs (parent p)); [|discriminate]. injection Hrun as <-.
    apply orb_false_iff in E as [_ E]. apply bool_decide_eq_false in E.
    rewrite lookup_insert_ne; [exact Hq|]. intros ->. apply E. eauto.
  - destruct (is_dir_at fs p); [discriminate|].
    destruct (is_dir_at fs (parent p)); [|discriminate]. injection Hrun as <-.
    rewrite lookup_insert_ne; [exact Hq|]. intros ->. apply Hw. left.
Qed.

(** What is done stays done through a later operation that writes
    elsewhere. *)
Lemma done_kept (op later : FsOp) (fs fs' : FileSystem) :
  done_in fs op ->
  run_op later fs = Return fs' ->
  (forall q, q ∈ written op -> q ∉ written later) ->
  done_in fs' op.
Proof.
  intros Hdone Hrun Hw. destruct op as [p | p content | p content]; cbn in *.
  - eapply Forall_impl; [exact Hdone|]. intros q Hq. eapply run_op_keeps_dir; eassumption.
  - destruct Hdone as [->|H]; [now left | right]. eapply run_op_keeps_entry; eassumption.
  - destruct Hdone as (Hp & Hfile & Hparent). split; [exact Hp|]. split.
    + eapply run_op_keeps_file; [exact Hrun | exact Hfile | apply Hw; left].
    + apply is_dir_at_true. apply is_dir_at_true in Hparent as [E|E]; [now left | right].
      eapply run_op_keeps_dir; eassumption.
Qed.

(** *** Sequences of operations *)

Lemma run_ops_cons (op : FsOp) (rest : list FsOp) (fs : FileSystem) :
  run_ops (op :: rest) None fs
  = match run_op op fs with
    | Return fs' => run_ops rest None fs'
    | Raise e => (Raise e, fs)
    end.
Proof. reflexivity. Qed.

Lemma run_ops_app (ops1 ops2 : list FsOp) (fs fs1 : FileSystem) :
  run_ops ops1 None fs = (Return tt, fs1) ->
  run_ops (ops1 ++ ops2) None fs = run_ops ops2 None fs1.
Proof.
  revert fs. induction ops1 as [|op ops1 IH]; intros fs H.
  - cbn in H. now injection H as ->.
  - rewrite <- app_comm_cons, run_ops_cons. rewrite run_ops_cons in H.
    destruct (run_op op fs) as [fs'|e]; [now apply IH | discriminate].
Qed.

(** A sequence whose operations are all done changes nothing. *)
Lemma run_ops_done (ops : list FsOp) (fs : FileSystem) :
  Forall (done_in fs) ops -> run_ops ops None fs = (Return tt, fs).
Proof.
  induction 1 as [|op ops Hop _ IH]; [reflexivity|].
  now rewrite run_ops_cons, (run_op_done op fs Hop).
Qed.

Lemma done_kept_by_ops (op : FsOp) (ops : list FsOp) (fs fs1 : FileSystem) :
  done_in fs op ->
  run_ops ops None fs = (Return tt, fs1) ->
  (forall q, q ∈ written op -> q ∉ writes ops) ->
  done_in fs1 op.
Proof.
  revert fs. induction ops as [|later ops IH]; intros fs Hdone Hrun Hw.
  - cbn in Hrun. now injection Hrun as <-.
  - rewrite run_ops_cons in Hrun.
    destruct (run_op later fs) as [fs'|e] eqn:E; [|discriminate].
    apply (IH fs'); [|exact Hrun|].
    + apply (done_kept op later fs fs' Hdone E).
      intros q Hq Hin. apply (Hw q Hq). unfold writes. cbn.
      apply elem_of_app. now left.
    + intros q Hq Hin. apply (Hw q Hq). unfold writes. cbn.
      apply elem_of_app. now right.
Qed.

(** After a sequence that writes no path twice has run, each of its
    operations is done. *)
Lemma run_ops_all_done (ops : list FsOp) (fs fs1 : FileSystem) :
  NoDup (writes ops) ->
  run_ops ops None fs = (Return tt, fs1) ->
  Forall (done_in fs1) ops.
Proof.
  revert fs. induction ops as [|op ops IH]; intros fs Hnd Hrun; [constructor|].
  rewrite run_ops_cons in Hrun.
  destruct (run_op op fs) as [fs'|e] eqn:E; [|discriminate].
  unfold writes in Hnd. cbn in Hnd. apply NoDup_app in Hnd as (_ & Hdisj & Hnd).
  constructor.
  - apply (done_kept_by_ops op ops fs' fs1); [|exact Hrun|exact Hdisj].
    now apply (run_op_makes_done op fs fs').
  - now apply (IH fs').
Qed.

(** A failure injected at operation [k] surfaces after the [k] operations
    before it, with the file system they left. *)
Lemma run_ops_fault (ops : list FsOp) (k : nat) (e : PyException) (fs fs_k : FileSystem) :
  k < length ops ->
  run_ops (take k ops) None fs = (Return tt, fs_k) ->
  run_ops ops (Some (k, e)) fs = (Raise e, fs_k).
Proof.
  revert ops fs. induction k as [|k IH]; intros [|op ops] fs Hk Hrun; cbn in Hk; try lia.
  - cbn in Hrun. now injection Hrun as <-.
  - cbn [take] in Hrun. rewrite run_ops_cons in Hrun. cbn [run_ops].
    destruct (run_op op fs) as [fs'|e'] eqn:E; [|discriminate].
    cbn [next_fault]. apply IH; [lia | exact Hrun].
Qed.

Lemma writes_take_NoDup (ops : list FsOp) (k : nat) :
  NoDup (writes ops) -> NoDup (writes (take k ops)).
Proof.
  intros H. rewrite <- (take_drop k ops) in H. unfold writes in H.
  rewrite map_app, concat_app in H. now apply NoDup_app in H as (H & _ & _).
Qed.

(** Retrying after a failure at operation [k]: the operations done before
    the failure are not done again, and the retry ends as a call without
    failure would have. *)
Lemma run_ops_resume (ops : list FsOp) (k : nat) (fs fs_k : FileSystem) :
  NoDup (writes ops) ->
  run_ops (take k ops) None fs = (Return tt, fs_k) ->
  run_ops (take k ops) None fs_k = (Return tt, fs_k) /\
  run_ops ops None fs_k = run_ops ops None fs.
Proof.
  intros Hnd Hrun.
  assert (run_ops (take k ops) None fs_k = (Return tt, fs_k)) as Hnoop.
  { apply run_ops_done. eapply run_ops_all_done; [|exact Hrun].
    now apply writes_take_NoDup. }
  split; [exact Hnoop|].
  pose proof (run_ops_app (take k ops) (drop k ops) fs_k fs_k Hnoop) as E1.
  pose proof (run_ops_app (take k ops) (drop k ops) fs fs_k Hrun) as E2.
  rewrite take_drop in E1, E2. now rewrite E1, E2.
Qed.

(** A sequence of operations never removes or replaces a directory, and
    changes no file but those it writes. *)
Lemma run_ops_keeps_dir (ops : list FsOp) (fs fs1 : FileSystem) (q : path) :
  run_ops ops None fs = (Return tt, fs1) -> fs !! q = Some Dir -> fs1 !! q = Some Dir.
Proof.
  revert fs. induction ops as [|op ops IH]; intros fs Hrun Hq.
  - cbn in Hrun. now injection Hrun as <-.
  - rewrite run_ops_cons in Hrun.
    destruct (run_op op fs) as [fs'|e] eqn:E; [|discriminate].
    apply (IH fs' Hrun). eapply run_op_keeps_dir; eassumption.
Qed.

Lemma run_ops_keeps_file (ops : list FsOp) (fs fs1 : FileSystem) (q : path)
  (content : string) :
  run_ops ops None fs = (Return tt, fs1) ->
  fs !! q = Some (File content) ->
  q ∉ writes ops ->
  fs1 !! q = Some (File content).
Proof.
  revert fs. induction ops as [|op ops IH]; intros fs Hrun Hq Hw.
  - cbn in Hrun. now injection Hrun as <-.
  - rewrite run_ops_cons in Hrun.
    destruct (run_op op fs) as [fs'|e] eqn:E; [|discriminate].
    unfold writes in Hw. cbn in Hw. apply not_elem_of_app in Hw as [Hop Hrest].
    apply (IH fs' Hrun); [|exact Hrest].
    eapply run_op_keeps_file; eassumption.
Qed.

Lemma self_among_ancestors (p : path) : p <> [] -> p ∈ ancestors_and_self p.
Proof.
  intros Hp. unfold ancestors_and_self. apply list_elem_of_fmap.
  exists (length p). split; [now rewrite firstn_all|].
  apply list_elem_of_In, in_seq. destruct p; [congruence | cbn; lia].
Qed.

Lemma prefix_among_ancestors (p q : path) :
  p <> [] -> p ∈ ancestors_and_self (p ++ q).
Proof.
  intros Hp. unfold ancestors_and_self. apply list_elem_of_fmap.
  exists (length p). split; [now rewrite take_app_length|].
  apply list_elem_of_In, in_seq. rewrite length_app. destruct p; [congruence | cbn; lia].
Qed.

Lemma made_dir (fs : FileSystem) (p : path) :
  p <> [] -> done_in fs (MakeDirs p) -> fs !! p = Some Dir.
Proof.
  intros Hp Hdone. cbn in Hdone. rewrite Forall_forall in Hdone.
  apply Hdone, self_among_ancestors, Hp.
Qed.

(** *** The manager *)

Section ManagerFacts.

Variable execution_dir_of : path -> path.
Variable required_step_files : string -> list string.
Variable makefile_text : path -> list string -> string -> string.

Abbreviation ops_of := (ensure_ops execution_dir_of required_step_files makefile_text).

Lemma writes_map_no_write {A : Type} (f : A -> FsOp) (xs : list A) :
  (forall x, written (f x) = []) -> writes (map f xs) = [].
Proof.
  intros H. unfold writes. induction xs as [|x xs IH]; [reflexivity|].
  cbn. now rewrite H, IH.
Qed.

(** The manager writes one file, the build description. *)
Lemma writes_ensure_ops (pipeline_root : path) (step_names : list string) (template : string) :
  writes (ops_of pipeline_root step_names template)
  = [execution_dir_of pipeline_root ++ ["Makefile"]].
Proof.
  unfold ensure_ops, writes. cbn.
  rewrite !map_app, !concat_app. cbn.
  fold (writes (map (fun f => CreateIfMissing (pipeline_root ++ ["steps"; f]) EmptyString)
                  (required_step_files template))).
  fold (writes (map (fun n => MakeDirs (execution_dir_of pipeline_root
                                          ++ ["steps"; n; "outputs"])) step_names)).
  now rewrite !writes_map_no_write.
Qed.

Lemma writes_ensure_ops_NoDup (pipeline_root : path) (step_names : list string)
  (template : string) :
  NoDup (writes (ops_of pipeline_root step_names template)).
Proof. rewrite writes_ensure_ops. apply NoDup_singleton. Qed.

(** C5.  A second call with the same inputs, on the file system the first
    call left, returns the same path and leaves the file system as it is:
    nothing is created twice, nothing is overwritten with another content. *)
Theorem ensure_is_idempotent (pipeline_root : path) (step_names : list string)
  (template : string) (fs fs1 : FileSystem) (execution_dir : path) :
  _get_or_create_execution_directory execution_dir_of required_step_files
    makefile_text pipeline_root step_names template None fs = (Return execution_dir, fs1) ->
  _get_or_create_execution_directory execution_dir_of required_step_files
    makefile_text pipeline_root step_names template None fs1 = (Return execution_dir, fs1).
Proof.
  unfold _get_or_create_execution_directory.
  destruct (run_ops _ None fs) as [[[]|e] fs'] eqn:Hrun; [|discriminate].
  intros [= <- <-].
  rewrite run_ops_done; [reflexivity|].
  eapply run_ops_all_done; [apply writes_ensure_ops_NoDup | exact Hrun].
Qed.

(** After a call that returned, the pieces are in place. *)
Lemma ensure_leaves_scaffold (pipeline_root : path) (step_names : list string)
  (template : string) (fs fs1 : FileSystem) :
  run_ops (ops_of pipeline_root step_names template) None fs = (Return tt, fs1) ->
  scaffold_in_place execution_dir_of required_step_files makefile_text
    pipeline_root step_names template fs1.
Proof.
  intros Hrun.
  pose proof (run_ops_all_done _ fs fs1
                (writes_ensure_ops_NoDup pipeline_root step_names template) Hrun) as Hdone.
  unfold ensure_ops in Hdone. cbv zeta in Hdone.
  apply Forall_app in Hdone as [Hexec Hdone].
  apply Forall_cons in Hdone as [Hsteps Hdone].
  apply Forall_app in Hdone as [Hstubs Hdone].
  apply Forall_app in Hdone as [Hmakefile Houtputs].
  rewrite Forall_singleton in Hexec. rewrite Forall_singleton in Hmakefile.
  unfold scaffold_in_place. cbv zeta. split; [|split; [|split; [|split]]].
  - apply is_dir_at_true.
    destruct (decide (execution_dir_of pipeline_root = [])) as [E|E]; [now left | right].
    now apply made_dir.
  - apply made_dir; [|exact Hsteps]. now destruct pipeline_root.
  - apply Forall_forall. intros f Hf. rewrite Forall_forall in Hstubs.
    destruct (Hstubs (CreateIfMissing (pipeline_root ++ ["steps"; f]) EmptyString))
      as [E|H]; [|now destruct pipeline_root|exact H].
    apply list_elem_of_fmap. eauto.
  - now destruct Hmakefile as (_ & Hfile & _).
  - apply Forall_forall. intros n Hn. rewrite Forall_forall in Houtputs.
    assert (done_in fs1 (MakeDirs (execution_dir_of pipeline_root
                                     ++ ["steps"; n; "outputs"]))) as Hmade.
    { apply Houtputs. apply list_elem_of_fmap. eauto. }
    split.
    + cbn in Hmade. rewrite Forall_forall in Hmade. apply Hmade.
      change (execution_dir_of pipeline_root ++ ["steps"; n; "outputs"])
        with (execution_dir_of pipeline_root ++ ["steps"] ++ [n; "outputs"]).
      rewrite app_assoc. apply prefix_among_ancestors.
      now destruct (execution_dir_of pipeline_root).
    + apply made_dir; [|exact Hmade]. now destruct (execution_dir_of pipeline_root).
Qed.

(** C6.  A failure at stage [k], after the stages before it ran: the
    exception propagates; the file system is the one those stages left, with
    nothing rolled back; on that file system the stages already run change
    nothing; a retry ends exactly as a call that met no failure would have,
    with the same path and the same file system; and when the retry
    returns, it returns the path of the execution directory, every piece is
    in place (the stubs, the build description with its text, the output
    directory of every step), and what the failed call had created is kept:
    its directories are directories still, and its files hold what they
    held, the build description apart, which is written anew. *)
Theorem ensure_resumes_after_failure (pipeline_root : path) (step_names : list string)
  (template : string) (k : nat) (e : PyException) (fs fs_k : FileSystem) :
  k < length (ops_of pipeline_root step_names template) ->
  run_ops (take k (ops_of pipeline_root step_names template)) None fs = (Return tt, fs_k) ->
  _get_or_create_execution_directory execution_dir_of required_step_files
    makefile_text pipeline_root step_names template (Some (k, e)) fs = (Raise e, fs_k) /\
  run_ops (take k (ops_of pipeline_root step_names template)) None fs_k = (Return tt, fs_k) /\
  _get_or_create_execution_directory execution_dir_of required_step_files
    makefile_text pipeline_root step_names template None fs_k
  = _get_or_create_execution_directory execution_dir_of required_step_files
    makefile_text pipeline_root step_names template None fs /\
  forall (execution_dir : path) (fs2 : FileSystem),
    _get_or_create_execution_directory execution_dir_of required_step_files
      makefile_text pipeline_root step_names template None fs_k
    = (Return execution_dir, fs2) ->
    execution_dir = execution_dir_of pipeline_root /\
    scaffold_in_place execution_dir_of required_step_files makefile_text
      pipeline_root step_names template fs2 /\
    (forall q, fs_k !! q = Some Dir -> fs2 !! q = Some Dir) /\
    (forall q content,
        fs_k !! q = Some (File content) ->
        q <> execution_dir_of pipeline_root ++ ["Makefile"] ->
        fs2 !! q = Some (File content)).
Proof.
  intros Hk Hrun.
  destruct (run_ops_resume _ k fs fs_k
              (writes_ensure_ops_NoDup pipeline_root step_names template) Hrun)
    as [Hnoop Hsame].
  split; [|split; [exact Hnoop|split]].
  - unfold _get_or_create_execution_directory.
    now rewrite (run_ops_fault _ k e fs fs_k Hk Hrun).
  - unfold _get_or_create_execution_directory. now rewrite Hsame.
  - intros execution_dir fs2. unfold _get_or_create_execution_directory.
    destruct (run_ops (ops_of pipeline_root step_names template) None fs_k)
      as [[[]|e'] fs'] eqn:Hretry; [|discriminate].
    intros [= <- <-]. split; [reflexivity|]. split; [|split].
    + eapply ensure_leaves_scaffold. exact Hretry.
    + intros q Hq. eapply run_ops_keeps_dir; eassumption.
    + intros q content Hq Hne. eapply run_ops_keeps_file; [exact Hretry | exact Hq |].
      rewrite writes_ensure_ops. now intros ->%list_elem_of_singleton.
Qed.

End ManagerFacts.

Lemma pair_from_fst {A B : Type} (x : A * B) (a : A) : fst x = a -> x = (a, snd x).
Proof. destruct x. cbn. now intros ->. Qed.

Lemma ensure_is_idempotent_witness :
  test_ensure None (snd (test_ensure None test_fs))
  = (Return ["home"; ".mlflow"; "pipelines"; "tmp"], snd (test_ensure None test_fs)).
Proof.
  apply (ensure_is_idempotent test_execution_dir_of test_required_step_files
           test_makefile_text ["tmp"] ["test_step"] "regression/v1" test_fs).
  apply pair_from_fst. vm_compute. reflexivity.
Defined.

Lemma ensure_resumes_after_failure_witness :
  test_ensure (Some (8, injected_failure "Step directory creation failed")) test_fs
  = (Raise (injected_failure "Step directory creation failed"),
     snd (run_ops (take 8 (ensure_ops test_execution_dir_of test_required_step_files
                             test_makefile_text ["tmp"] ["test_step"] "regression/v1"))
            None test_fs))
  /\ test_ensure None
       (snd (run_ops (take 8 (ensure_ops test_execution_dir_of test_required_step_files
                                test_makefile_text ["tmp"] ["test_step"] "regression/v1"))
               None test_fs))
     = test_ensure None test_fs
  /\ fst (test_ensure None
            (snd (run_ops (take 8 (ensure_ops test_execution_dir_of
                                     test_required_step_files test_makefile_text
                                     ["tmp"] ["test_step"] "regression/v1"))
                    None test_fs)))
     = Return ["home"; ".mlflow"; "pipelines"; "tmp"]
  /\ scaffold_in_place test_execution_dir_of test_required_step_files test_makefile_text
       ["tmp"] ["test_step"] "regression/v1"
       (snd (test_ensure None
               (snd (run_ops (take 8 (ensure_ops test_execution_dir_of
                                        test_required_step_files test_makefile_text
                                        ["tmp"] ["test_step"] "regression/v1"))
                       None test_fs)))).
Proof.
  destruct (ensure_resumes_after_failure test_execution_dir_of test_required_step_files
              test_makefile_text ["tmp"] ["test_step"] "regression/v1" 8
              (injected_failure "Step directory creation failed") test_fs
              (snd (run_ops (take 8 (ensure_ops test_execution_dir_of
                                       test_required_step_files test_makefile_text
                                       ["tmp"] ["test_step"] "regression/v1"))
                      None test_fs)))
    as (H1 & _ & H3 & H4).
  - vm_compute. lia.
  - apply pair_from_fst. vm_compute. reflexivity.
  - split; [exact H1|]. split; [exact H3|]. split; [vm_compute; reflexivity|].
    refine (proj1 (proj2 (H4 ["home"; ".mlflow"; "pipelines"; "tmp"] _ _))).
    apply pair_from_fst. vm_compute. reflexivity.
Defined.

End ExecutionDirectoryFacts.

(** ** The orchestration driver *)

Module ExecutionFacts.
Import Pipeline ExecutionPlan Execution ExecutionPlanFacts.

(** The three-step pipeline of the tests: a run to [transform], then a run
    to [ingest], as in
    [test_run_pipeline_with_ingest_step_as_target_clears_downstream_step_state]. *)
Example ingest_rerun_clears_downstream :
  map_to_list
    (snd (run_pipeline_step test_execute 30 test_pipeline ingest_step
            (snd (run_pipeline_step test_execute 10 test_pipeline transform_step ∅))))
  = [ ("ingest",
       {| exec_state := {| status := SUCCEEDED; last_updated_timestamp := 30;
                           stack_trace := None |};
          outputs := [("ingest.parquet", 30%Z)];
          built_with := Some 1%Z |}) ].
Proof. vm_compute. reflexivity. Qed.

(** A failing upstream step, as in
    [test_run_pipeline_step_returns_expected_result] and
    [test_run_pipeline_step_failure_clears_downstream_step_state]: the step
    returned is the failing one, it is FAILED with its trace, and the target
    has no state and no output. *)
Example failing_upstream_step :
  fst (run_pipeline_step test_execute_bad_location 40 [bad_ingest_step; split_step]
         split_step
         (snd (run_pipeline_step test_execute 10 test_pipeline split_step ∅)))
  = bad_ingest_step /\
  map_to_list
    (snd (run_pipeline_step test_execute_bad_location 40 [bad_ingest_step; split_step]
            split_step
            (snd (run_pipeline_step test_execute 10 test_pipeline split_step ∅))))
  = [ ("ingest",
       {| exec_state := {| status := FAILED; last_updated_timestamp := 40;
                           stack_trace := Some "Traceback (most recent call last)" |};
          outputs := [];
          built_with := None |}) ].
Proof. split; vm_compute; reflexivity. Qed.

(** A changed split configuration, as in
    [test_run_pipeline_step_after_change_clears_downstream_step_state]:
    ingest is reused, split runs again, transform loses state and outputs. *)
Example changed_split_clears_transform :
  map_to_list
    (snd (run_pipeline_step test_execute 50 [ingest_step; updated_split_step; transform_step]
            updated_split_step
            (snd (run_pipeline_step test_execute 10 test_pipeline transform_step ∅))))
  = [ ("split",
       {| exec_state := {| status := SUCCEEDED; last_updated_timestamp := 50;
                           stack_trace := None |};
          outputs := [("split.parquet", 50%Z)];
          built_with := Some 22%Z |});
      ("ingest",
       {| exec_state := {| status := SUCCEEDED; last_updated_timestamp := 10;
                           stack_trace := None |};
          outputs := [("ingest.parquet", 10%Z)];
          built_with := Some 1%Z |}) ].
Proof. vm_compute. reflexivity. Qed.

(** *** Steps and their names *)



Section Names.

Variable pipeline_steps : list StepDescriptor.
Hypothesis names_unique : NoDup (map step_name pipeline_steps).






End Names.

(** *** What each stage does to the step directories *)




Section DriverFacts.

Variable execute : StepDescriptor -> Store -> StepOutcome.








(** *** The two courses of a run *)






(** *** The steps that ran *)






Section Run.

Variables (now : Z) (pipeline_steps : list StepDescriptor) (target first : StepDescriptor).
Variables (i j : nat) (store : Store).
Hypothesis names_unique : NoDup (map step_name pipeline_steps).
Hypothesis target_at : pipeline_steps !! i = Some target.
Hypothesis first_stale :
  list_find (fun s => reusable store target s = false) (take (S i) pipeline_steps)
  = Some (j, first).

Local Abbreviation rules := (drop j (take (S i) pipeline_steps)).
Local Abbreviation ran := (execute_rules execute now rules store).
Local Abbreviation attempted := (attempted_of (snd (fst ran)) rules).
Local Abbreviation final := (snd (run_pipeline_step execute now pipeline_steps target store)).






End Run.

(** *** Ingest as target, and the full cache hit *)





End DriverFacts.




End ExecutionFacts.

(** ** [pipeline.py]: what the lookups return *)

Module PipelineExtras.
Import Pipeline PyFacts PipelineFacts.

(** [xs.index(x)] is the first position that holds [x]. *)
Lemma py_index_first (x : string) (xs : list string) :
  x ∈ xs ->
  exists i, py_index x xs = Return i /\ xs !! i = Some x /\
            forall j y, j < i -> xs !! j = Some y -> y <> x.
Proof.
  induction xs as [|y xs IH]; intros Hin; [inversion Hin|].
  simpl. destruct (decide (y = x)) as [-> | Hne].
  - exists 0. repeat split. intros j y Hj. lia.
  - apply elem_of_cons in Hin as [-> | Hin]; [congruence|].
    destruct (IH Hin) as (i & -> & Hi & Hfirst). exists (S i).
    repeat split; [exact Hi|].
    intros [|j] z Hj Hz; cbn in Hz.
    + congruence.
    + apply (Hfirst j); [lia | exact Hz].
Qed.

Lemma get_step_returns_first_match_aux (steps : list BaseStep) (step_name : string) :
  match _get_step steps step_name with
  | Return step =>
      exists i, steps !! i = Some step /\ name step = step_name /\
                forall j other, j < i -> steps !! j = Some other -> name other <> step_name
  | Raise e =>
      (step_name ∉ map name steps) /\
      e = MlflowException
            ("Step " +:+ step_name +:+ " not found in pipeline. Available steps are "
             +:+ py_str_list (map name steps)) None
  end.
Proof.
  unfold _get_step, py_in. case_bool_decide as Hin; cbn [negb].
  - destruct (py_index_first _ _ Hin) as (i & -> & Hi & Hfirst). cbn [bind].
    unfold py_getitem. apply list_lookup_fmap_Some in Hi as (step & Hname & Hstep).
    rewrite Hstep. exists i. repeat split; [exact Hstep | congruence |].
    intros j other Hj Hother. apply (Hfirst j); [exact Hj|].
    rewrite list_lookup_fmap, Hother. reflexivity.
  - split; [exact Hin | reflexivity].
Qed.

(** X1.  [_get_step] returns exactly when some step bears the name, and then it
    returns the first step of the list that bears it; otherwise it raises an
    [MlflowException] that carries no error code. *)
Theorem get_step_returns_first_match (steps : list BaseStep) (step_name : string) :
  match _get_step steps step_name with
  | Return step =>
      exists i, steps !! i = Some step /\ name step = step_name /\
                forall j other, j < i -> steps !! j = Some other -> name other <> step_name
  | Raise e =>
      (step_name ∉ map name steps) /\
      e = MlflowException
            ("Step " +:+ step_name +:+ " not found in pipeline. Available steps are "
             +:+ py_str_list (map name steps)) None
  end.
Proof. apply get_step_returns_first_match_aux. Qed.

(** X2.  The subgraph of a target is a sublist of the step list; it holds
    exactly the steps of the target's class, so the target itself when the
    list holds it; and resolving the subgraph again within the subgraph
    changes nothing. *)
Theorem subgraph_is_sublist_of_class (steps : list BaseStep) (target_step : BaseStep) :
  let subgraph := _get_subgraph_for_target_step steps target_step in
  sublist subgraph steps /\
  (forall step, step ∈ subgraph <->
                step ∈ steps /\ step_class step = step_class target_step) /\
  (target_step ∈ steps -> target_step ∈ subgraph) /\
  _get_subgraph_for_target_step subgraph target_step = subgraph.
Proof.
  cbv zeta. rewrite !subgraph_is_filter. split; [|split; [|split]].
  - apply sublist_filter.
  - intros step. rewrite list_elem_of_filter. split; intros [H1 H2]; split; congruence.
  - intros Hin. apply list_elem_of_filter. split; [reflexivity | exact Hin].
  - induction steps as [|s rest IH]; [reflexivity|].
    rewrite filter_cons. destruct (decide _) as [E|E]; [|exact IH].
    rewrite filter_cons. destruct (decide _); [|contradiction]. now rewrite IH.
Qed.

Lemma find_artifact_some (artifacts : list Artifact) (a : string) (artifact : Artifact) :
  find_artifact artifacts a = Some artifact ->
  artifact ∈ artifacts /\ artifact_name artifact = a.
Proof.
  induction artifacts as [|x rest IH]; simpl; [discriminate|].
  destruct (decide _) as [E|_].
  - intros [= <-]. split; [left | exact E].
  - intros H. destruct (IH H). split; [now right | assumption].
Qed.

Lemma find_artifact_is_none (artifacts : list Artifact) (a : string) :
  find_artifact artifacts a = None ->
  forall artifact, artifact ∈ artifacts -> artifact_name artifact <> a.
Proof.
  induction artifacts as [|x rest IH]; simpl; intros H artifact Hin; [inversion Hin|].
  destruct (decide _) as [E|Hne]; [discriminate|].
  apply elem_of_cons in Hin as [-> | Hin]; [exact Hne | now apply IH].
Qed.

(** X3.  [_get_artifact] never returns [None]: it returns an artifact of the
    requested name, the one offered by the first step that offers such an
    artifact, or it raises [INVALID_PARAMETER_VALUE], and then no step offers
    an artifact of that name. *)
Theorem get_artifact_returns_first_offer (steps : list BaseStep) (a : string) :
  match _get_artifact steps a with
  | Return artifact =>
      artifact_name artifact = a /\
      exists i step,
        steps !! i = Some step /\ artifact ∈ get_artifacts step /\
        forall j other x, j < i -> steps !! j = Some other ->
                          x ∈ get_artifacts other -> artifact_name x <> a
  | Raise e =>
      (forall step artifact,
          step ∈ steps -> artifact ∈ get_artifacts step -> artifact_name artifact <> a) /\
      e = MlflowException ("The artifact with name '" +:+ a +:+ "' is not supported.")
            (Some INVALID_PARAMETER_VALUE)
  end.
Proof.
  unfold _get_artifact.
  induction steps as [|step rest IH]; simpl.
  - split; [|reflexivity]. intros step artifact H. inversion H.
  - destruct (find_artifact (get_artifacts step) a) as [artifact|] eqn:Efind.
    + apply find_artifact_some in Efind as [Hin Hname]. split; [exact Hname|].
      exists 0, step. repeat split; [exact Hin|]. intros j other x Hj. lia.
    + pose proof (find_artifact_is_none _ _ Efind) as Hnone.
      destruct (find_artifact_in_steps rest a) as [artifact|].
      * destruct IH as (Hname & i & s & Hs & Hin & Hfirst). split; [exact Hname|].
        exists (S i), s. repeat split; [exact Hs | exact Hin |].
        intros [|j] other x Hj Hother Hx; cbn in Hother.
        -- injection Hother as <-. now apply Hnone.
        -- apply (Hfirst j other); [lia | exact Hother | exact Hx].
      * destruct IH as [Hrest _]. split; [|reflexivity].
        intros s x Hs Hx. apply elem_of_cons in Hs as [-> | Hs].
        -- now apply Hnone.
        -- now apply (Hrest s).
Qed.



End PipelineExtras.

(** ** [pipeline.py]: the entry points on a name no step bears, and the
    construction of the pipeline object *)

Module EntryPointExtras.
Import Pipeline PipelineErrors PyFacts EntryPointFacts.

Lemma get_step_unknown (steps : list BaseStep) (step_name : string) :
  step_name ∉ map name steps ->
  _get_step steps step_name = Raise (step_not_found step_name (map name steps)).
Proof.
  intros Hnot. unfold _get_step, py_in.
  rewrite bool_decide_eq_false_2 by exact Hnot. reflexivity.
Qed.

Lemma truthy_name (step_name : string) :
  step_name <> EmptyString -> py_truthy (Some step_name) = true.
Proof. intros H. unfold py_truthy. now rewrite bool_decide_eq_false_2. Qed.

Section WithCollaborators.

Context {World Opaque : Type} (c : Collaborators World Opaque).

Lemma resolve_eq (self : PipelineObj Opaque) (w : World) :
  _resolve_pipeline_steps c (self, w)
  = (fst (_resolve_pipeline_steps c (self, w)), (self, w)).
Proof.
  rewrite <- (resolve_keeps_state c (self, w)) at 3.
  now destruct (_resolve_pipeline_steps c (self, w)).
Qed.

(** X5.  [run] on a name that no step of the current configuration bears: the
    steps are reloaded and kept in the object, the lookup raises, and
    nothing is run, inspected or read: the world is as it was. *)
Theorem run_of_unknown_step_runs_nothing (step_name : string) (steps : list BaseStep)
  (self : PipelineObj Opaque) (w : World) :
  step_name <> EmptyString ->
  fst (_resolve_pipeline_steps c (self, w)) = Return steps ->
  step_name ∉ map name steps ->
  run c (Some step_name) (self, w)
  = (Raise (step_not_found step_name (map name steps)), (set_steps steps self, w)).
Proof.
  intros Hname Hresolve Hnot.
  unfold run, run_until_state, bindM. rewrite resolve_eq, Hresolve.
  rewrite (truthy_name _ Hname).
  unfold assign_steps, get_step_of_self, bindM, self_, lift. cbn -[_get_step].
  rewrite (get_step_unknown _ _ Hnot). reflexivity.
Qed.

(** X6.  [inspect] on a name that no step of the current configuration
    bears asks for the output directory of the step before it looks the name
    up: the execution utilities are called with the
    unknown name and may change the world; then the lookup raises, and the
    step's own [inspect] is never reached. *)
Theorem inspect_of_unknown_step_resolves_path_first (step_name : string)
  (steps : list BaseStep) (self : PipelineObj Opaque) (w : World) :
  step_name <> EmptyString ->
  fst (_resolve_pipeline_steps c (self, w)) = Return steps ->
  step_name ∉ map name steps ->
  inspect c (Some step_name) (self, w)
  = match get_step_output_path c (_pipeline_root_path self) step_name EmptyString w with
    | (Return _, w1) =>
        (Raise (step_not_found step_name (map name steps)), (set_steps steps self, w1))
    | (Raise e, w1) => (Raise e, (set_steps steps self, w1))
    end.
Proof.
  intros Hname Hresolve Hnot.
  unfold inspect, bindM. rewrite resolve_eq, Hresolve.
  rewrite (truthy_name _ Hname).
  unfold assign_steps, get_step_of_self, bindM, self_, lift, calls. cbn -[_get_step].
  destruct (get_step_output_path c _ _ _ w) as [[dir|e] w1]; [|reflexivity].
  cbn -[_get_step]. rewrite (get_step_unknown _ _ Hnot). reflexivity.
Qed.

(** X7.  [clean] on a name that no step held by the object bears raises the
    lookup error and cleans nothing: object and world are as they were. *)
Theorem clean_of_unknown_step_cleans_nothing (step_name : string)
  (self : PipelineObj Opaque) (w : World) :
  step_name <> EmptyString ->
  step_name ∉ map name (_steps self) ->
  clean c (Some step_name) (self, w)
  = (Raise (step_not_found step_name (map name (_steps self))), (self, w)).
Proof.
  intros Hname Hnot.
  unfold clean, bindM, self_, get_step_of_self, ret, lift, calls. cbn [fst snd].
  rewrite (truthy_name _ Hname). cbn -[_get_step].
  rewrite (get_step_unknown _ _ Hnot). reflexivity.
Qed.

(** *** Building the steps *)

Lemma construct_steps_returns (classes : list (gmap string (ConfigValue Opaque) -> string -> result BaseStep))
  (pipeline_config : gmap string (ConfigValue Opaque)) (pipeline_root : string) :
  match construct_steps classes pipeline_config pipeline_root with
  | Return steps =>
      Forall2 (fun s step => s pipeline_config pipeline_root = Return step) classes steps
  | Raise e =>
      exists i s,
        classes !! i = Some s /\ s pipeline_config pipeline_root = Raise e /\
        forall j s', j < i -> classes !! j = Some s' ->
                     exists step, s' pipeline_config pipeline_root = Return step
  end.
Proof.
  induction classes as [|s rest IH]; simpl; [constructor|].
  destruct (s pipeline_config pipeline_root) as [step|e] eqn:Es; cbn [bind].
  - destruct (construct_steps rest pipeline_config pipeline_root) as [steps|e]; cbn [bind].
    + now constructor.
    + destruct IH as (i & s' & Hs' & He & Hfirst). exists (S i), s'.
      repeat split; [exact Hs' | exact He |].
      intros [|j] s'' Hj Hs''; cbn in Hs''.
      * injection Hs'' as <-. eauto.
      * apply (Hfirst j); [lia | exact Hs''].
  - exists 0, s. repeat split; [exact Es|]. intros j s' Hj. lia.
Qed.

(** X8.  [_resolve_pipeline_steps] hands every step class the configuration
    read from the files with the key [profile] set to the profile of the
    object, whatever the files say under that key.  It returns one step per
    class, in the order of the classes; when a class raises, the exception of
    the first such class comes out and no list is returned.  It changes
    neither the object nor the world. *)
Theorem resolve_builds_one_step_per_class (self : PipelineObj Opaque) (w : World)
  (config : gmap string (ConfigValue Opaque)) :
  get_pipeline_config c (_pipeline_root_path self) (_profile self) w = Return config ->
  exists pipeline_config,
    pipeline_config !! "profile" = Some (StrValue (_profile self)) /\
    (forall key, key <> "profile" -> pipeline_config !! key = config !! key) /\
    snd (_resolve_pipeline_steps c (self, w)) = (self, w) /\
    match fst (_resolve_pipeline_steps c (self, w)) with
    | Return steps =>
        Forall2 (fun s step => s pipeline_config (_pipeline_root_path self) = Return step)
          (_get_step_classes c) steps
    | Raise e =>
        exists i s,
          _get_step_classes c !! i = Some s /\
          s pipeline_config (_pipeline_root_path self) = Raise e /\
          forall j s', j < i -> _get_step_classes c !! j = Some s' ->
                       exists step, s' pipeline_config (_pipeline_root_path self) = Return step
    end.
Proof.
  intros Hconfig. exists (<["profile" := StrValue (_profile self)]> config).
  split; [apply lookup_insert_eq|].
  split; [intros key Hkey; now apply lookup_insert_ne|].
  split; [apply resolve_keeps_state|].
  unfold _resolve_pipeline_steps, bindM, self_, reads, lift. cbn [fst snd].
  rewrite Hconfig. cbn [fst]. apply construct_steps_returns.
Qed.

(** X9.  [__init__] leaves the world as it found it.  The object it returns
    holds the root and the profile it was given, the name read from the root,
    the steps that resolving gives in that world, and the [template] entry of
    the configuration; and an [inspect] that follows in the same world
    leaves that object as it is. *)
Theorem init_is_in_sync_with_configuration (pipeline_root_path profile : string)
  (w w' : World) (self : PipelineObj Opaque) (step : option string) :
  __init__ c pipeline_root_path profile w = (Return self, w') ->
  w' = w /\
  _pipeline_root_path self = pipeline_root_path /\
  _profile self = profile /\
  get_pipeline_name c pipeline_root_path w = Return (_name self) /\
  fst (_resolve_pipeline_steps c (self, w)) = Return (_steps self) /\
  (exists config,
     get_pipeline_config c pipeline_root_path profile w = Return config /\
     _template self = config !! "template") /\
  fst (snd (inspect c step (self, w))) = self.
Proof.
  unfold __init__. destruct (get_pipeline_name c pipeline_root_path w) as [name0|e] eqn:En;
    [|discriminate].
  set (self0 := {| _pipeline_root_path := pipeline_root_path; _profile := profile;
                   _name := name0; _steps := []; _template := None |}).
  rewrite (resolve_eq self0 w).
  destruct (fst (_resolve_pipeline_steps c (self0, w))) as [steps|e] eqn:Eres; [|discriminate].
  destruct (get_pipeline_config c pipeline_root_path profile w) as [config|e] eqn:Ec;
    [|discriminate].
  intros [= <- <-]. cbn [_pipeline_root_path _profile _name _steps _template set_steps].
  assert (Hresolve :
    fst (_resolve_pipeline_steps c
           ({| _pipeline_root_path := pipeline_root_path; _profile := profile;
               _name := name0; _steps := steps; _template := config !! "template" |}, w))
    = Return steps).
  { rewrite <- Eres. unfold _resolve_pipeline_steps, bindM, self_, reads, lift. cbn.
    rewrite Ec. reflexivity. }
  repeat split; try reflexivity; [exact Hresolve | eauto |].
  unfold inspect, bindM. rewrite resolve_eq, Hresolve.
  unfold assign_steps, get_step_of_self, bindM, self_, lift, calls. cbn.
  destruct (negb (py_truthy step)); cbn.
  - destruct (display_pipeline_dag c _ w); reflexivity.
  - destruct (get_step_output_path c _ _ _ w) as [[dir|e] w1]; cbn; [|reflexivity].
    destruct (_get_step steps _); cbn; [|reflexivity].
    destruct (step_inspect c _ _ w1); reflexivity.
Qed.

End WithCollaborators.

Lemma run_of_unknown_step_runs_nothing_witness :
  run demo (Some "train") (demo_pipeline, demo_world "split" SUCCEEDED None)
  = (Raise (step_not_found "train" ["split"]),
     (set_steps [ {| name := "split"; step_class := TRAINING; get_artifacts := [] |} ]
        demo_pipeline,
      demo_world "split" SUCCEEDED None)).
Proof.
  apply (run_of_unknown_step_runs_nothing demo "train"
           [ {| name := "split"; step_class := TRAINING; get_artifacts := [] |} ]).
  - discriminate.
  - reflexivity.
  - intros H. apply list_elem_of_singleton in H. discriminate.
Defined.

Lemma inspect_of_unknown_step_resolves_path_first_witness :
  inspect demo (Some "train") (demo_pipeline, demo_world "split" SUCCEEDED None)
  = (Raise (step_not_found "train" ["split"]),
     (set_steps [ {| name := "split"; step_class := TRAINING; get_artifacts := [] |} ]
        demo_pipeline,
      demo_world "split" SUCCEEDED None)).
Proof.
  apply (inspect_of_unknown_step_resolves_path_first demo "train"
           [ {| name := "split"; step_class := TRAINING; get_artifacts := [] |} ]).
  - discriminate.
  - reflexivity.
  - intros H. apply list_elem_of_singleton in H. discriminate.
Defined.

Lemma clean_of_unknown_step_cleans_nothing_witness :
  clean demo (Some "train") (demo_pipeline, demo_world "split" SUCCEEDED None)
  = (Raise (step_not_found "train" ["ingest"]),
     (demo_pipeline, demo_world "split" SUCCEEDED None)).
Proof.
  apply (clean_of_unknown_step_cleans_nothing demo "train").
  - discriminate.
  - intros H. apply list_elem_of_singleton in H. discriminate.
Defined.

Lemma resolve_builds_one_step_per_class_witness :
  exists pipeline_config : gmap string (ConfigValue unit),
    pipeline_config !! "profile" = Some (StrValue "local") /\
    (forall key, key <> "profile" ->
                 pipeline_config !! key
                 = ({[ "step" := StrValue "split" ]} : gmap string (ConfigValue unit)) !! key) /\
    snd (_resolve_pipeline_steps demo (demo_pipeline, demo_world "split" SUCCEEDED None))
    = (demo_pipeline, demo_world "split" SUCCEEDED None) /\
    match fst (_resolve_pipeline_steps demo
                 (demo_pipeline, demo_world "split" SUCCEEDED None)) with
    | Return steps =>
        Forall2 (fun s step => s pipeline_config "root" = Return step) [demo_step_class] steps
    | Raise e =>
        exists i s,
          [demo_step_class] !! i = Some s /\ s pipeline_config "root" = Raise e /\
          forall j s', j < i -> [demo_step_class] !! j = Some s' ->
                       exists step, s' pipeline_config "root" = Return step
    end.
Proof.
  apply (resolve_builds_one_step_per_class demo demo_pipeline
           (demo_world "split" SUCCEEDED None)).
  reflexivity.
Defined.

Lemma init_is_in_sync_with_configuration_witness :
  demo_world "ingest" SUCCEEDED None = demo_world "ingest" SUCCEEDED None /\
  _pipeline_root_path demo_pipeline = "root" /\
  _profile demo_pipeline = "local" /\
  get_pipeline_name demo "root" (demo_world "ingest" SUCCEEDED None)
  = Return (_name demo_pipeline) /\
  fst (_resolve_pipeline_steps demo (demo_pipeline, demo_world "ingest" SUCCEEDED None))
  = Return (_steps demo_pipeline) /\
  (exists config,
     get_pipeline_config demo "root" "local" (demo_world "ingest" SUCCEEDED None)
     = Return config /\
     _template demo_pipeline = config !! "template") /\
  fst (snd (inspect demo None (demo_pipeline, demo_world "ingest" SUCCEEDED None)))
  = demo_pipeline.
Proof.
  apply (init_is_in_sync_with_configuration demo "root" "local").
  vm_compute. reflexivity.
Defined.

End EntryPointExtras.

(** ** [pipeline.py]: the factory *)

Module FactoryFacts.
Import Factory PyFacts.

Lemma contains_char_cons (ch x : ascii) (s : string) :
  py_contains (String ch EmptyString) (String x s)
  = bool_decide (ch = x) || py_contains (String ch EmptyString) s.
Proof.
  cbn [py_contains String.prefix].
  destruct (ascii_dec ch x) as [E|E].
  - rewrite bool_decide_eq_true_2 by exact E. now destruct s.
  - rewrite bool_decide_eq_false_2 by exact E. reflexivity.
Qed.

Lemma contains_char_app (ch : ascii) (a b : string) :
  py_contains (String ch EmptyString) (a +:+ b)
  = py_contains (String ch EmptyString) a || py_contains (String ch EmptyString) b.
Proof.
  induction a as [|x a IH].
  - rewrite app_nil_str. reflexivity.
  - rewrite app_cons_str, !contains_char_cons, IH. apply orb_assoc.
Qed.

Lemma replace_char_removes (old new : ascii) (s : string) :
  old <> new -> py_contains (String old EmptyString) (replace_char old new s) = false.
Proof.
  intros Hne. induction s as [|x s IH]; [reflexivity|].
  cbn [replace_char]. rewrite contains_char_cons, IH, orb_false_r.
  apply bool_decide_eq_false_2. destruct (decide (x = old)); congruence.
Qed.

Lemma replace_char_keeps_absent (ch old new : ascii) (s : string) :
  ch <> new ->
  py_contains (String ch EmptyString) s = false ->
  py_contains (String ch EmptyString) (replace_char old new s) = false.
Proof.
  intros Hne. induction s as [|x s IH]; [reflexivity|].
  cbn [replace_char]. rewrite !contains_char_cons. intros H.
  apply orb_false_elim in H as [Hx Hs]. rewrite (IH Hs), orb_false_r.
  apply bool_decide_eq_false_2. apply bool_decide_eq_false_1 in Hx.
  destruct (decide (x = old)); congruence.
Qed.

Lemma replace_char_idem (old new : ascii) (s : string) :
  old <> new -> replace_char old new (replace_char old new s) = replace_char old new s.
Proof.
  intros Hne. induction s as [|x s IH]; [reflexivity|].
  cbn [replace_char]. rewrite IH. f_equal.
  repeat case_decide; congruence.
Qed.

Lemma replace_char_comm (a b new : ascii) (s : string) :
  a <> new -> b <> new ->
  replace_char a new (replace_char b new s) = replace_char b new (replace_char a new s).
Proof.
  intros Ha Hb. induction s as [|x s IH]; [reflexivity|].
  cbn [replace_char]. rewrite IH. f_equal.
  repeat case_decide; congruence.
Qed.

Lemma length_app_string (a b : string) :
  String.length (a +:+ b) = String.length a + String.length b.
Proof.
  induction a as [|x a IH]; [reflexivity|].
  rewrite app_cons_str. cbn [String.length]. now rewrite IH.
Qed.

Lemma replace_char_length (old new : ascii) (s : string) :
  String.length (replace_char old new s) = String.length s.
Proof. induction s as [|x s IH]; [reflexivity|]. cbn [replace_char String.length]. now rewrite IH. Qed.

(** X10.  The class name built from a template holds neither [/] nor [@], is as
    long as the template plus the fixed parts, and does not tell the
    separators apart: a template with [/] or [@] already written as a dot
    names the same class. *)
Theorem class_name_has_no_separator (template : string) :
  py_contains "/" (pipeline_class_name template) = false /\
  py_contains "@" (pipeline_class_name template) = false /\
  String.length (pipeline_class_name template) = 30 + String.length template /\
  pipeline_class_name (replace_char "/" "." template) = pipeline_class_name template /\
  pipeline_class_name (replace_char "@" "." template) = pipeline_class_name template.
Proof.
  unfold pipeline_class_name. repeat split.
  - rewrite !contains_char_app.
    rewrite (replace_char_keeps_absent "/" "@" "."); [reflexivity | discriminate |].
    now apply replace_char_removes.
  - rewrite !contains_char_app.
    rewrite replace_char_removes by discriminate. reflexivity.
  - rewrite !length_app_string, !replace_char_length. cbn [String.length]. lia.
  - rewrite replace_char_idem by discriminate. reflexivity.
  - rewrite (replace_char_comm "/" "@") by discriminate.
    rewrite replace_char_idem by discriminate.
    rewrite (replace_char_comm "@" "/") by discriminate. reflexivity.
Qed.

Section WithCollaborators.

Context {World Opaque Instance : Type} (c : FactoryCollaborators World Opaque Instance).

(** X11.  When [__new__] returns, every check has passed and the object is the
    one that the class named by the template built from the root path and the
    profile: the profile is a non-empty string, the root path holds no space,
    the [template] entry of the configuration is a string, and the class of
    that name was found.  The class is the first collaborator that may change
    the world. *)
Theorem new_returns_what_the_template_class_builds (profile : option string) (w w' : World)
  (instance : Instance) :
  __new__ c profile w = (Return instance, w') ->
  exists profile_name pipeline_root_path pipeline_config template pipeline_class_module,
    profile = Some profile_name /\ profile_name <> EmptyString /\
    get_pipeline_root_path c w = Return pipeline_root_path /\
    py_contains " " pipeline_root_path = false /\
    read_pipeline_config c pipeline_root_path profile_name w = Return pipeline_config /\
    pipeline_config !! "template" = Some (YamlStr template) /\
    _get_class_from_string c (pipeline_class_name template) w = Return pipeline_class_module /\
    pipeline_class_module pipeline_root_path profile_name w = (Return instance, w').
Proof.
  unfold __new__. destruct profile as [profile_name|]; [|discriminate].
  cbn [py_truthy negb from_option id]. case_bool_decide as Hp; [discriminate|]. cbn [negb].
  destruct (get_pipeline_root_path c w) as [root|e] eqn:Eroot; [|discriminate].
  destruct (py_contains " " root) eqn:Espace; [discriminate|].
  destruct (read_pipeline_config c root profile_name w) as [config|e] eqn:Econfig;
    [|discriminate].
  destruct (config !! "template") as [[template| |o]|] eqn:Etemplate; try discriminate.
  destruct (_get_class_from_string c (pipeline_class_name template) w) as [cls|e] eqn:Ecls.
  - destruct (read_pipeline_name c root w); [|discriminate].
    intros H. exists profile_name, root, config, template, cls. repeat split; assumption.
  - destruct (is_module_not_found e); discriminate.
Qed.

(** X12.  Whatever [_get_class_from_string] raises, [__new__] raises an
    [MlflowException] in its place: with [INVALID_PARAMETER_VALUE] and the
    template in the message for a [ModuleNotFoundError], with
    [INTERNAL_ERROR] and the [repr] of the exception for anything else.  The
    message names the class, and the world is as it was. *)
Theorem new_wraps_class_lookup_failure (profile_name pipeline_root_path template : string)
  (pipeline_config : gmap string (YamlValue Opaque)) (e : PyException) (w : World) :
  profile_name <> EmptyString ->
  get_pipeline_root_path c w = Return pipeline_root_path ->
  py_contains " " pipeline_root_path = false ->
  read_pipeline_config c pipeline_root_path profile_name w = Return pipeline_config ->
  pipeline_config !! "template" = Some (YamlStr template) ->
  _get_class_from_string c (pipeline_class_name template) w = Raise e ->
  exists msg,
    __new__ c (Some profile_name) w
    = (Raise (MlflowException msg
                (Some (if is_module_not_found e then INVALID_PARAMETER_VALUE
                       else INTERNAL_ERROR))), w) /\
    py_contains (pipeline_class_name template) msg = true /\
    py_contains (if is_module_not_found e then template else repr_exception c e) msg = true.
Proof.
  intros Hp Hroot Hspace Hconfig Htemplate Hcls. unfold __new__.
  cbn [py_truthy negb from_option id]. rewrite bool_decide_eq_false_2 by exact Hp. cbn [negb].
  rewrite Hroot, Hspace, Hconfig, Htemplate, Hcls.
  destruct (is_module_not_found e); eexists; (split; [reflexivity|]); split;
    apply occurs_in_contains.
  - apply occurs_in_app_l, occurs_in_app_r, occurs_in_refl.
  - do 4 apply occurs_in_app_l. apply occurs_in_refl.
  - apply occurs_in_app_l, occurs_in_app_r, occurs_in_refl.
  - do 3 apply occurs_in_app_l. apply occurs_in_refl.
Qed.

(** X13.  A profile that is [None] or empty, and a root path that holds a space,
    are refused with [INVALID_PARAMETER_VALUE] before the configuration is
    read: whatever the configuration and the class lookup would do. *)
Theorem new_refuses_profile_and_path_first (profile : option string)
  (pipeline_root_path : string) (w : World) :
  (py_truthy profile = false ->
   __new__ c profile w
   = (Raise (MlflowException
               "A profile name must be provided to construct a valid Pipeline object."
               (Some INVALID_PARAMETER_VALUE)), w)) /\
  (py_truthy profile = true ->
   get_pipeline_root_path c w = Return pipeline_root_path ->
   py_contains " " pipeline_root_path = true ->
   exists msg,
     __new__ c profile w = (Raise (MlflowException msg (Some INVALID_PARAMETER_VALUE)), w) /\
     py_contains pipeline_root_path msg = true).
Proof.
  split.
  - intros Hp. unfold __new__. rewrite Hp. reflexivity.
  - intros Hp Hroot Hspace. unfold __new__. rewrite Hp, Hroot, Hspace. cbn [negb].
    eexists. split; [reflexivity|].
    apply occurs_in_contains. do 2 apply occurs_in_app_l. apply occurs_in_refl.
Qed.

End WithCollaborators.

Example class_name_of_regression :
  pipeline_class_name "regression/v1" = "mlflow.pipelines.regression.v1.PipelineImpl".
Proof. reflexivity. Qed.

Lemma new_returns_what_the_template_class_builds_witness :
  exists profile_name pipeline_root_path pipeline_config template pipeline_class_module,
    Some "local" = Some profile_name /\ profile_name <> EmptyString /\
    get_pipeline_root_path (demo_factory "/home/user/project" "regression/v1") tt
    = Return pipeline_root_path /\
    py_contains " " pipeline_root_path = false /\
    read_pipeline_config (demo_factory "/home/user/project" "regression/v1")
      pipeline_root_path profile_name tt = Return pipeline_config /\
    pipeline_config !! "template" = Some (YamlStr template) /\
    _get_class_from_string (demo_factory "/home/user/project" "regression/v1")
      (pipeline_class_name template) tt = Return pipeline_class_module /\
    pipeline_class_module pipeline_root_path profile_name tt
    = (Return "/home/user/project:local", tt).
Proof.
  apply (new_returns_what_the_template_class_builds
           (demo_factory "/home/user/project" "regression/v1") (Some "local") tt tt).
  reflexivity.
Defined.

Lemma new_wraps_class_lookup_failure_witness :
  exists msg,
    __new__ (demo_factory "/home/user/project" "classification/v1") (Some "local") tt
    = (Raise (MlflowException msg (Some INVALID_PARAMETER_VALUE)), tt) /\
    py_contains "mlflow.pipelines.classification.v1.PipelineImpl" msg = true /\
    py_contains "classification/v1" msg = true.
Proof.
  apply (new_wraps_class_lookup_failure
           (demo_factory "/home/user/project" "classification/v1")
           "local" "/home/user/project" "classification/v1"
           {[ "template" := YamlStr "classification/v1" ]}
           (BuiltinError "ModuleNotFoundError"
              "No module named mlflow.pipelines.classification.v1.PipelineImpl") tt).
  - discriminate.
  - reflexivity.
  - reflexivity.
  - reflexivity.
  - reflexivity.
  - reflexivity.
Defined.

Lemma new_refuses_profile_and_path_first_witness :
  __new__ (demo_factory "/home/user/my project" "regression/v1") None tt
  = (Raise (MlflowException
              "A profile name must be provided to construct a valid Pipeline object."
              (Some INVALID_PARAMETER_VALUE)), tt) /\
  exists msg,
    __new__ (demo_factory "/home/user/my project" "regression/v1") (Some "local") tt
    = (Raise (MlflowException msg (Some INVALID_PARAMETER_VALUE)), tt) /\
    py_contains "/home/user/my project" msg = true.
Proof.
  split.
  - apply (proj1 (new_refuses_profile_and_path_first
                    (demo_factory "/home/user/my project" "regression/v1")
                    None "/home/user/my project" tt)).
    reflexivity.
  - apply (proj2 (new_refuses_profile_and_path_first
                    (demo_factory "/home/user/my project" "regression/v1")
                    (Some "local") "/home/user/my project" tt)); reflexivity.
Defined.

End FactoryFacts.

(** ** [split.py]: the split on any ratios, the hash buckets, and the
    helpers *)

Module SplitExtras.
Import Split SplitHelpers SplitFacts PyFacts.

(** *** Comparisons that exclude each other *)

Lemma float_lt_not_le (x a : pyfloat) : float_lt x a = true -> float_le a x = false.
Proof.
  unfold float_lt, float_le, SFltb, SFleb. rewrite !SFcompare_key.
  destruct (float_key x) as [kx|], (float_key a) as [ka|]; try discriminate.
  rewrite (lex_cmp_antisym kx ka). now destruct (lex_cmp kx ka).
Qed.

Section Rows.

Context {Row : Type}.

Lemma select_rows_sublist (rows : list Row) (mask : list bool) (d : list Row) :
  select_rows rows mask = Return d -> sublist d rows.
Proof.
  revert mask d. induction rows as [|row rows IH]; intros [|keep mask] d; cbn;
    try discriminate; try (intros [= <-]; constructor).
  destruct (select_rows rows mask) as [rest|] eqn:E; [|discriminate].
  cbn. intros [= <-]. specialize (IH _ _ E). destruct keep; now constructor.
Qed.


Lemma select_rows_disjoint {X : Type} (f1 f2 : X -> bool) (rows : list Row) (xs : list X)
  (d1 d2 : list Row) :
  (forall x, f1 x = true -> f2 x = false) ->
  NoDup rows ->
  select_rows rows (map f1 xs) = Return d1 ->
  select_rows rows (map f2 xs) = Return d2 ->
  forall row, row ∈ d1 -> row ∉ d2.
Proof.
  intros Hexcl. revert xs d1 d2.
  induction rows as [|r rows IH]; intros [|x xs] d1 d2 Hnodup; cbn; try discriminate;
    try (intros [= <-] _ row H; inversion H).
  - destruct (select_rows rows (map f1 xs)) as [d1'|] eqn:E1; [|discriminate].
    destruct (select_rows rows (map f2 xs)) as [d2'|] eqn:E2; [|discriminate].
    cbn. intros [= <-] [= <-] row Hin1 Hin2.
    apply NoDup_cons in Hnodup as [Hr Hnodup].
    pose proof (fun y Hy => elem_of_sublist _ _ y Hy (select_rows_sublist _ _ _ E1)) as S1.
    pose proof (fun y Hy => elem_of_sublist _ _ y Hy (select_rows_sublist _ _ _ E2)) as S2.
    specialize (IH xs d1' d2' Hnodup E1 E2 row).
    destruct (f1 x) eqn:F1.
    + rewrite (Hexcl x F1) in Hin2.
      apply elem_of_cons in Hin1 as [-> | Hin1]; [apply Hr; auto | now apply IH].
    + destruct (f2 x).
      * apply elem_of_cons in Hin2 as [-> | Hin2]; [apply Hr; auto | now apply IH].
      * now apply IH.
Qed.

Lemma select_rows_filter {X : Type} (f : X -> bool) (rows : list Row) (xs : list X) :
  length xs = length rows ->
  select_rows rows (map f xs)
  = Return (map fst (filter (fun rx => f (snd rx) = true) (zip rows xs))).
Proof.
  revert xs. induction rows as [|r rows IH]; intros [|x xs] Hlen; try discriminate.
  - reflexivity.
  - cbn [map select_rows]. rewrite IH by now inversion Hlen. cbn [bind zip zip_with].
    rewrite filter_cons. cbn [snd]. destruct (f x); destruct (decide _); try congruence;
      reflexivity.
Qed.

(** X14.  Whatever the ratios and the buckets, when [_get_split_df] returns, each
    of the three dataframes keeps rows of the input in the input's order,
    and a row of the validation split is in neither of the two others (the
    rows of the input being distinct). *)
Theorem split_never_shares_validation_rows (input_df : list Row)
  (hash_buckets : list pyfloat) (split_ratios : pyfloat * pyfloat * pyfloat)
  (train_df validation_df test_df : list Row) (log : list string) :
  NoDup input_df ->
  _get_split_df input_df hash_buckets split_ratios
  = Return (train_df, validation_df, test_df, log) ->
  sublist train_df input_df /\
  sublist validation_df input_df /\
  sublist test_df input_df /\
  forall row, row ∈ validation_df -> (row ∉ train_df) /\ (row ∉ test_df).
Proof.
  intros Hnodup. unfold _get_split_df.
  destruct (bucket_ends split_ratios) as [[a b]|]; [|discriminate]. cbn [bind].
  destruct (select_rows input_df (map (fun x => float_lt x a) hash_buckets))
    as [d1|] eqn:E1; [|discriminate]. cbn [bind].
  destruct (select_rows input_df
              (map (fun x => float_le a x && float_lt x b) hash_buckets))
    as [d2|] eqn:E2; [|discriminate]. cbn [bind].
  destruct (select_rows input_df (map (fun x => float_ge x b) hash_buckets))
    as [d3|] eqn:E3; [|discriminate]. cbn [bind].
  intros [= <- <- <- _].
  split; [|split; [|split]]; try (eapply select_rows_sublist; eassumption).
  intros row Hval. split.
  - intros Htrain. revert Hval.
    eapply (select_rows_disjoint (fun x => float_lt x a)
              (fun x => float_le a x && float_lt x b)); try eassumption.
    intros x Hx. now rewrite (float_lt_not_le _ _ Hx).
  - revert Hval.
    eapply (select_rows_disjoint (fun x => float_le a x && float_lt x b)
              (fun x => float_ge x b)); try eassumption.
    intros x Hx. apply andb_true_iff in Hx as [_ Hx].
    unfold float_ge. now apply float_lt_not_le.
Qed.

Lemma empty_splits_by_case (d1 d2 d3 : list Row) :
  empty_splits d1 d2 d3
  = match d1 with [] => ["train split"] | _ => [] end
    ++ match d2 with [] => ["validation split"] | _ => [] end
    ++ match d3 with [] => ["test split"] | _ => [] end.
Proof.
  unfold empty_splits. rewrite !filter_cons, filter_nil. cbn [snd].
  destruct d1, d2, d3; repeat case_decide; cbn [length] in *;
    try discriminate; try congruence; reflexivity.
Qed.

(** X15.  [_get_split_df] logs at most one warning, and logs it exactly when one
    of the three dataframes is empty; the warning names the empty splits and
    no other. *)
Theorem split_warns_of_the_empty_splits (input_df : list Row)
  (hash_buckets : list pyfloat) (split_ratios : pyfloat * pyfloat * pyfloat)
  (train_df validation_df test_df : list Row) (log : list string) :
  _get_split_df input_df hash_buckets split_ratios
  = Return (train_df, validation_df, test_df, log) ->
  (log = [] <-> train_df <> [] /\ validation_df <> [] /\ test_df <> []) /\
  forall msg, msg ∈ log ->
    log = [msg] /\
    (py_contains "train split" msg = true <-> train_df = []) /\
    (py_contains "validation split" msg = true <-> validation_df = []) /\
    (py_contains "test split" msg = true <-> test_df = []).
Proof.
  unfold _get_split_df.
  destruct (bucket_ends split_ratios) as [[a b]|]; [|discriminate]. cbn [bind].
  destruct (select_rows input_df _) as [d1|]; [|discriminate]. cbn [bind].
  destruct (select_rows input_df _) as [d2|]; [|discriminate]. cbn [bind].
  destruct (select_rows input_df _) as [d3|]; [|discriminate]. cbn [bind].
  intros [= <- <- <- <-].
  rewrite (empty_splits_by_case d1 d2 d3).
  destruct d1 as [|r1 d1], d2 as [|r2 d2], d3 as [|r3 d3]; cbn [app];
    vm_compute empty_splits_warning.
  all: split;
    [ split;
      [ first [ discriminate | intros _; repeat split; discriminate ]
      | first [ intros _; reflexivity | intros (H1 & H2 & H3); congruence ] ]
    | intros msg Hin;
      first
        [ now inversion Hin
        | apply list_elem_of_singleton in Hin as ->;
          split; [reflexivity|];
          split; [|split]; vm_compute (py_contains _ _);
          first [ split; intros _; reflexivity | split; discriminate ] ] ].
Qed.


End Rows.

(** *** The hash buckets *)

Lemma hash_bucket_mod (h : Z) : hash_bucket h = hash_bucket (h mod _SPLIT_HASH_BUCKET_NUM)%Z.
Proof. unfold hash_bucket. now rewrite Z.mod_mod. Qed.

Lemma remainder_is_small (h : Z) :
  exists k, k < 1000 /\ (h mod _SPLIT_HASH_BUCKET_NUM)%Z = Z.of_nat k.
Proof.
  pose proof (Z.mod_pos_bound h 1000 eq_refl) as [H0 H1].
  exists (Z.to_nat (h mod 1000)%Z). unfold _SPLIT_HASH_BUCKET_NUM. split; lia.
Qed.

(** A property that holds at each of the thousand remainders holds at
    every hash. *)
Lemma for_every_hash (p : Z -> bool) :
  (forall h, p h = p (h mod _SPLIT_HASH_BUCKET_NUM)%Z) ->
  forallb (fun k => p (Z.of_nat k)) (seq 0 1000) = true ->
  forall h, p h = true.
Proof.
  intros Hmod Hall h. rewrite Hmod.
  destruct (remainder_is_small h) as (k & Hk & ->).
  rewrite forallb_forall in Hall. apply Hall. apply in_seq. lia.
Qed.

(** X17.  Every hash bucket is a number of [[0, 1)], whatever the row hash, also
    a negative one; there is one bucket per row; and rows whose hashes have
    the same remainder get the same bucket. *)
Theorem hash_buckets_are_in_unit_interval (row_hashes : list Z) :
  Forall (fun x => in_unit_interval x = true /\ valid_binary 53 1024 x = true)
    (_create_hash_buckets row_hashes) /\
  length (_create_hash_buckets row_hashes) = length row_hashes /\
  forall i j h1 h2,
    row_hashes !! i = Some h1 -> row_hashes !! j = Some h2 ->
    (h1 mod 1000 = h2 mod 1000)%Z ->
    _create_hash_buckets row_hashes !! i = _create_hash_buckets row_hashes !! j.
Proof.
  split; [|split].
  - unfold _create_hash_buckets. apply Forall_map, Forall_forall. intros h _.
    apply andb_true_iff.
    apply (for_every_hash
             (fun h => in_unit_interval (hash_bucket h)
                       && valid_binary 53 1024 (hash_bucket h))).
    + intros h'. now rewrite <- hash_bucket_mod.
    + vm_compute. reflexivity.
  - apply length_map.
  - intros i j h1 h2 Hi Hj Hmod. unfold _create_hash_buckets.
    rewrite !list_lookup_fmap, Hi, Hj. cbn.
    rewrite (hash_bucket_mod h1), (hash_bucket_mod h2).
    unfold _SPLIT_HASH_BUCKET_NUM. now rewrite Hmod.
Qed.

Lemma select_rows_ext {Row : Type} (rows : list Row) (m1 m2 : list bool) :
  m1 = m2 -> select_rows rows m1 = select_rows rows m2.
Proof. now intros ->. Qed.

(** X18.  With the default ratios the split goes by the remainder of the row
    hash modulo 1000: below 750 the row is for training, from 750 and below
    875 for validation, from 875 on for testing. *)
Theorem default_split_goes_by_hash_remainder {Row : Type} (input_df : list Row)
  (row_hashes : list Z) :
  length row_hashes = length input_df ->
  exists log,
    _get_split_df input_df (_create_hash_buckets row_hashes) default_split_ratios
    = Return (rows_with_hash (fun h => h mod 1000 <? 750)%Z input_df row_hashes,
              rows_with_hash (fun h => (750 <=? h mod 1000) && (h mod 1000 <? 875))%Z
                input_df row_hashes,
              rows_with_hash (fun h => 875 <=? h mod 1000)%Z input_df row_hashes,
              log).
Proof.
  intros Hlen. eexists. unfold _get_split_df, default_split_ratios.
  rewrite default_ratios_ends. cbn [bind]. unfold _create_hash_buckets.
  rewrite !map_map.
  assert (Hthresholds : forall h,
    Bool.eqb (float_lt (hash_bucket h) float_0_75) (h mod 1000 <? 750)%Z
    && Bool.eqb (float_le float_0_75 (hash_bucket h)
                 && float_lt (hash_bucket h) (S754_finite false 7881299347898368 (-53)))
         ((750 <=? h mod 1000) && (h mod 1000 <? 875))%Z
    && Bool.eqb (float_ge (hash_bucket h) (S754_finite false 7881299347898368 (-53)))
         (875 <=? h mod 1000)%Z = true).
  { apply (for_every_hash (fun h =>
      Bool.eqb (float_lt (hash_bucket h) float_0_75) (h mod 1000 <? 750)%Z
      && Bool.eqb (float_le float_0_75 (hash_bucket h)
                   && float_lt (hash_bucket h) (S754_finite false 7881299347898368 (-53)))
           ((750 <=? h mod 1000) && (h mod 1000 <? 875))%Z
      && Bool.eqb (float_ge (hash_bucket h) (S754_finite false 7881299347898368 (-53)))
           (875 <=? h mod 1000)%Z)).
    - intros h. rewrite <- hash_bucket_mod. unfold _SPLIT_HASH_BUCKET_NUM.
      now rewrite Z.mod_mod.
    - vm_compute. reflexivity. }
  rewrite (select_rows_ext input_df _ (map (fun h => h mod 1000 <? 750)%Z row_hashes)).
  2:{ apply map_ext. intros h. specialize (Hthresholds h).
      apply andb_true_iff in Hthresholds as [H12 _].
      apply andb_true_iff in H12 as [H1 _]. now apply eqb_prop in H1. }
  rewrite (select_rows_filter (fun h => h mod 1000 <? 750)%Z) by exact Hlen. cbn [bind].
  rewrite (select_rows_ext input_df _
             (map (fun h => (750 <=? h mod 1000) && (h mod 1000 <? 875))%Z row_hashes)).
  2:{ apply map_ext. intros h. specialize (Hthresholds h).
      apply andb_true_iff in Hthresholds as [H12 _].
      apply andb_true_iff in H12 as [_ H2]. now apply eqb_prop in H2. }
  rewrite (select_rows_filter (fun h => (750 <=? h mod 1000) && (h mod 1000 <? 875))%Z)
    by exact Hlen.
  cbn [bind].
  rewrite (select_rows_ext input_df _ (map (fun h => 875 <=? h mod 1000)%Z row_hashes)).
  2:{ apply map_ext. intros h. specialize (Hthresholds h).
      apply andb_true_iff in Hthresholds as [_ H3]. now apply eqb_prop in H3. }
  rewrite (select_rows_filter (fun h => 875 <=? h mod 1000)%Z) by exact Hlen. cbn [bind].
  reflexivity.
Qed.

Lemma split_never_shares_validation_rows_witness :
  sublist [1; 3; 4] [1; 2; 3; 4] /\
  sublist [2] [1; 2; 3; 4] /\
  sublist [] [1; 2; 3; 4] /\
  forall row, row ∈ [2] -> (row ∉ [1; 3; 4]) /\ (row ∉ ([] : list nat)).
Proof.
  apply (split_never_shares_validation_rows [1; 2; 3; 4]
           [float_half; float_0_75; float_0_125; float_half] default_split_ratios
           [1; 3; 4] [2] []
           ["The following input dataset splits are empty: test split."]).
  - apply (bool_decide_unpack (NoDup [1; 2; 3; 4])). vm_compute. exact I.
  - vm_compute. reflexivity.
Defined.

Lemma split_warns_of_the_empty_splits_witness :
  (["The following input dataset splits are empty: test split."] = []
   <-> [1; 3; 4] <> [] /\ [2] <> [] /\ ([] : list nat) <> []) /\
  forall msg, msg ∈ ["The following input dataset splits are empty: test split."] ->
    ["The following input dataset splits are empty: test split."] = [msg] /\
    (py_contains "train split" msg = true <-> [1; 3; 4] = []) /\
    (py_contains "validation split" msg = true <-> [2] = []) /\
    (py_contains "test split" msg = true <-> ([] : list nat) = []).
Proof.
  apply (split_warns_of_the_empty_splits [1; 2; 3; 4]
           [float_half; float_0_75; float_0_125; float_half] default_split_ratios).
  vm_compute. reflexivity.
Defined.


Lemma default_split_goes_by_hash_remainder_witness :
  exists log,
    _get_split_df ["a"; "b"; "c"; "d"] (_create_hash_buckets [1749; 12800; 999; 2000]%Z)
      default_split_ratios
    = Return (rows_with_hash (fun h => h mod 1000 <? 750)%Z
                ["a"; "b"; "c"; "d"] [1749; 12800; 999; 2000]%Z,
              rows_with_hash (fun h => (750 <=? h mod 1000) && (h mod 1000 <? 875))%Z
                ["a"; "b"; "c"; "d"] [1749; 12800; 999; 2000]%Z,
              rows_with_hash (fun h => 875 <=? h mod 1000)%Z
                ["a"; "b"; "c"; "d"] [1749; 12800; 999; 2000]%Z,
              log).
Proof.
  apply (default_split_goes_by_hash_remainder ["a"; "b"; "c"; "d"]
           [1749; 12800; 999; 2000]%Z).
  reflexivity.
Defined.

Example default_split_of_four_rows :
  rows_with_hash (fun h => h mod 1000 <? 750)%Z
    ["a"; "b"; "c"; "d"] [1749; 12800; 999; 2000]%Z = ["a"; "d"] /\
  rows_with_hash (fun h => (750 <=? h mod 1000) && (h mod 1000 <? 875))%Z
    ["a"; "b"; "c"; "d"] [1749; 12800; 999; 2000]%Z = ["b"] /\
  rows_with_hash (fun h => 875 <=? h mod 1000)%Z
    ["a"; "b"; "c"; "d"] [1749; 12800; 999; 2000]%Z = ["c"].
Proof. repeat split; vm_compute; reflexivity. Qed.

End SplitExtras.

(** ** [split.py]: hashable elements and the output of the user code *)

Module SplitHelperFacts.
Import Split SplitHelpers PyFacts.

(** Induction on a value, with the property at hand for every part of
    it. *)
Lemma PyValue_parts (P : PyValue -> Prop) :
  (forall n, P (PyInt n)) ->
  (forall is_hashable id, P (PyOther is_hashable id)) ->
  (forall xs, Forall P xs -> P (PyTuple xs)) ->
  (forall xs, Forall P xs -> P (PyList xs)) ->
  (forall items, Forall (fun kv => P (fst kv) /\ P (snd kv)) items -> P (PyDict items)) ->
  (forall shape flat, Forall P flat -> P (NdArray shape flat)) ->
  forall v, P v.
Proof.
  intros Hint Hother Htuple Hlist Hdict Harray.
  fix IH 1. intros [n|is_hashable id|xs|xs|items|shape flat].
  - apply Hint.
  - apply Hother.
  - apply Htuple. induction xs as [|x xs IHxs]; constructor; [apply IH | exact IHxs].
  - apply Hlist. induction xs as [|x xs IHxs]; constructor; [apply IH | exact IHxs].
  - apply Hdict. induction items as [|[k v] items IHitems]; constructor;
      [split; apply IH | exact IHitems].
  - apply Harray. induction flat as [|x xs IHxs]; constructor; [apply IH | exact IHxs].
Qed.

Lemma forallb_map_eq {A B : Type} (f : B -> bool) (g : A -> B) (h : A -> bool) (xs : list A) :
  Forall (fun x => f (g x) = h x) xs -> forallb f (map g xs) = forallb h xs.
Proof.
  induction 1 as [|x xs Hx _ IH]; [reflexivity|].
  cbn [map forallb]. now rewrite Hx, IH.
Qed.

Lemma forallb_hashable_ints (shape : list nat) :
  forallb hashable (map (fun n => PyInt (Z.of_nat n)) shape) = true.
Proof. induction shape as [|n shape IH]; [reflexivity | exact IH]. Qed.

(** X19.  The result of [_make_elem_hashable] can be hashed exactly when every
    unhashable part of the element is a list or a dict within lists and
    dicts, or an array of hashable elements: a list or a dict inside a tuple
    is left as it is, and so is any other unhashable object.  Applying the
    function to its own result changes nothing. *)
Theorem make_elem_hashable_reaches_lists_and_dicts (elem : PyValue) :
  hashable (_make_elem_hashable elem) = reachable elem /\
  _make_elem_hashable (_make_elem_hashable elem) = _make_elem_hashable elem.
Proof.
  split.
  - induction elem as [n|is_hashable id|xs _|xs IH|items IH|shape flat _] using PyValue_parts;
      try reflexivity.
    + cbn [_make_elem_hashable hashable reachable]. now apply forallb_map_eq.
    + cbn [_make_elem_hashable hashable reachable]. apply forallb_map_eq.
      eapply Forall_impl; [exact IH|]. intros [k v] [Hk Hv]. cbn [fst snd] in *.
      cbn [hashable forallb]. now rewrite Hk, Hv, andb_true_r.
    + cbn [_make_elem_hashable hashable reachable forallb].
      now rewrite forallb_hashable_ints, andb_true_r.
  - now destruct elem.
Qed.

Section UserCodeFacts.

Context {Data : Type}.

Lemma check_split_returns (post_split_obj : UserObject Data)
  (pre_split_df : DataFrame Data) (split_type : string) :
  match check_split post_split_obj pre_split_df split_type with
  | Return df => post_split_obj = IsDataFrame df /\ columns df = columns pre_split_df
  | Raise e => exists msg, e = MlflowException msg None
  end.
Proof.
  unfold check_split. destruct post_split_obj as [df|]; [|eauto].
  destruct (decide _) as [Hne|Heq]; [eauto|].
  split; [reflexivity|].
  destruct (decide (columns df = columns pre_split_df)) as [E|E]; [exact E|].
  exfalso. apply Heq. congruence.
Qed.

(** X20.  [_validate_user_code_output] returns only what the user function
    returned, and only when that is three dataframes whose columns are, in
    order, the columns of the dataframes passed in.  In every other case,
    also when the user function itself raises, it raises an
    [MlflowException] that carries no error code. *)
Theorem validated_output_keeps_the_columns
  (post_split : DataFrame Data -> DataFrame Data -> DataFrame Data
                -> result (list (UserObject Data)))
  (train_df validation_df test_df : DataFrame Data) :
  match _validate_user_code_output post_split train_df validation_df test_df with
  | Return (post_train_df, post_validation_df, post_test_df) =>
      post_split train_df validation_df test_df
      = Return [IsDataFrame post_train_df; IsDataFrame post_validation_df;
                IsDataFrame post_test_df] /\
      columns post_train_df = columns train_df /\
      columns post_validation_df = columns validation_df /\
      columns post_test_df = columns test_df
  | Raise e => exists msg, e = MlflowException msg None
  end.
Proof.
  unfold _validate_user_code_output, user_code_error.
  destruct (post_split train_df validation_df test_df) as [[|a [|b [|d [|? ?]]]]|e];
    try (eexists; reflexivity).
  pose proof (check_split_returns a train_df "train") as Ha.
  pose proof (check_split_returns b validation_df "validation") as Hb.
  pose proof (check_split_returns d test_df "test") as Hd.
  destruct (check_split a train_df "train") as [a'|]; [|exact Ha]. cbn [bind].
  destruct (check_split b validation_df "validation") as [b'|]; [|exact Hb]. cbn [bind].
  destruct (check_split d test_df "test") as [d'|]; [|exact Hd]. cbn [bind].
  destruct Ha as [-> Ha], Hb as [-> Hb], Hd as [-> Hd]. auto.
Qed.

End UserCodeFacts.

End SplitHelperFacts.
